(** * Data profiling and chart options of the EDA dashboard

    A shallow embedding of the profiling code of [eda_dashboard.py],
    [dash_plotter.py] and [simple_plotter.py]: column classification,
    descriptive statistics, the pairwise correlation matrix, the selector
    callbacks of the Dash applications and the dropdown builder of the
    stand-alone plotter.

    Numbers.  The Python code computes on binary64 floats.  Two models of
    them are used.  In the first a float is an exact rational or NaN
    ([num := option Q], [None] being NaN): NaN propagation, the guards on
    NaN and on zero are kept as the code has them, rounding, overflow and
    infinities are not represented; results are kept in lowest terms so
    that they can be compared with [=].  The second, [Binary64], runs the
    arithmetic on the kernel's IEEE 754 doubles; it is used where the last
    bit, an overflow or the rounding of a large integer decides.  A
    statement proved on the exact model and meant for the code says for
    which columns it is meant ([Binary64.safe_column]). *)

From Stdlib Require Import String List Bool Arith ZArith QArith Qminmax Qround Lia Lqa.
From Stdlib Require DecimalString.
From Stdlib Require PrimFloat SpecFloat FloatOps FloatAxioms.
Import ListNotations.
Open Scope string_scope.
Open Scope list_scope.

Set Implicit Arguments.

(** ** Frames: the pandas data the code works on *)

Module Frame.

(** The dtypes a column of a loaded table can have. *)
Inductive dtype := Int64 | Float64 | Object | Category | Boolean | Datetime.

(** A cell.  [NA] stands for every missing marker of pandas (NaN, None,
    NaT); dates are kept as their ISO text. *)
Inductive cell :=
| NA
| Num (q : Q)
| Str (s : string)
| Flag (b : bool).

Record series := Series {
  name : string;
  dtype_of : dtype;
  values : list cell
}.

(** A DataFrame is the ordered sequence of its columns. *)
Definition DataFrame := list series.

(** [df.columns.tolist()] *)
Definition columns (df : DataFrame) : list string := map name df.

(** [select_dtypes(include=["number"])]: integer and float columns. *)
Definition is_number (d : dtype) : bool :=
  match d with Int64 | Float64 => true | _ => false end.

(** [select_dtypes(include=["object", "category", "bool"])] *)
Definition is_object_category_bool (d : dtype) : bool :=
  match d with Object | Category | Boolean => true | _ => false end.

(** [pd.api.types.is_numeric_dtype]: unlike ["number"] above it accepts
    bool columns. *)
Definition is_numeric_dtype (d : dtype) : bool :=
  match d with Int64 | Float64 | Boolean => true | _ => false end.

Definition select_dtypes (include : dtype -> bool) (df : DataFrame) : DataFrame :=
  filter (fun s => include (dtype_of s)) df.

(** [df[col]]: the columns carrying that label.  One column is a Series;
    with a repeated label pandas hands back a frame. *)
Definition getitem (df : DataFrame) (col : string) : list series :=
  filter (fun s => name s =? col) df.

Definition isna (c : cell) : bool :=
  match c with NA => true | _ => false end.

Definition notna (c : cell) : bool := negb (isna c).

(** [Series.dropna()] on the values. *)
Definition dropna (l : list cell) : list cell := filter notna l.

Definition cell_eqb (a b : cell) : bool :=
  match a, b with
  | NA, NA => true
  | Num p, Num q => Qeq_bool p q
  | Str s, Str t => (s =? t)%string
  | Flag x, Flag y => Bool.eqb x y
  | _, _ => false
  end.

(** [Series.unique()]: the distinct values in order of first appearance. *)
Definition unique (l : list cell) : list cell :=
  fold_left (fun seen x => if existsb (cell_eqb x) seen then seen else seen ++ [x]) l [].

(** [Series.nunique(dropna=True)] *)
Definition nunique (s : series) : nat := length (unique (dropna (values s))).

End Frame.
Import Frame.

(** ** Column classification ([infer_column_types], the same function in
    [eda_dashboard.py] and [dash_plotter.py]) *)

Module Classifier.

Definition mem (c : string) (l : list string) : bool := existsb (String.eqb c) l.

(** [enumerate(l)] *)
Definition enumerate (l : list string) : list (nat * string) :=
  combine (seq 0 (length l)) l.

(** [[c for i, c in enumerate(categorical) if c not in categorical[:i]]] *)
Definition dedupe (categorical : list string) : list string :=
  map snd
    (filter (fun ic => negb (mem (snd ic) (firstn (fst ic) categorical)))
            (enumerate categorical)).

(** The body of the loop over the numeric labels.  [df[col].nunique()] is a
    number only when [df[col]] is a single Series; every other case raises
    inside the [try] and is passed over. *)
Definition low_cardinality (df : DataFrame) (cat_threshold : Z) (col : string) : bool :=
  match getitem df col with
  | [s] => (Z.of_nat (nunique s) <=? cat_threshold)%Z
  | _ => false
  end.

Definition append_low_cardinality (df : DataFrame) (cat_threshold : Z)
    (categorical : list string) (col : string) : list string :=
  if low_cardinality df cat_threshold col then categorical ++ [col] else categorical.

Definition infer_column_types (df : DataFrame) (cat_threshold : Z)
    : list string * list string :=
  let numeric := columns (select_dtypes is_number df) in
  let categorical := columns (select_dtypes is_object_category_bool df) in
  let categorical := fold_left (append_low_cardinality df cat_threshold) numeric categorical in
  let categorical := dedupe categorical in
  (numeric, categorical).

(** The default threshold of the signature. *)
Definition default_cat_threshold : Z := 20.

(** Order preservation: [l] is obtained from [m] by dropping entries. *)
Inductive Subseq : list string -> list string -> Prop :=
| Subseq_nil : Subseq [] []
| Subseq_skip x l m : Subseq l m -> Subseq l (x :: m)
| Subseq_keep x l m : Subseq l m -> Subseq (x :: l) (x :: m).

(** The dedupe comprehension, read as a loop that remembers what it has
    seen. *)
Fixpoint keep_new (seen l : list string) : list string :=
  match l with
  | [] => []
  | x :: t =>
      if mem x seen then keep_new (seen ++ [x]) t
      else x :: keep_new (seen ++ [x]) t
  end.

End Classifier.

(** ** Floats *)

Module Float.

(** A float: a rational, or NaN. *)
Definition num := option Q.

Definition nan : num := None.

Definition isnan (x : num) : bool :=
  match x with None => true | Some _ => false end.

Definition lift2 (f : Q -> Q -> Q) (x y : num) : num :=
  match x, y with
  | Some a, Some b => Some (Qred (f a b))
  | _, _ => None
  end.

Definition add : num -> num -> num := lift2 Qplus.
Definition sub : num -> num -> num := lift2 Qminus.
Definition mul : num -> num -> num := lift2 Qmult.

(** Division; a zero divisor gives no rational, it is NaN here. *)
Definition div (x y : num) : num :=
  match x, y with
  | Some a, Some b => if Qeq_bool b 0 then None else Some (Qred (a / b))
  | _, _ => None
  end.

(** [x == y] on floats: false as soon as one side is NaN. *)
Definition eqb (x y : num) : bool :=
  match x, y with
  | Some a, Some b => Qeq_bool a b
  | _, _ => false
  end.

(** [Series.astype(float)] on one cell of a column that [is_numeric_dtype]
    accepts: numbers stay, booleans become 1.0 and 0.0, a missing entry is
    NaN.  (Text does not occur in such a column.)  Here a number is kept as
    it is; [Binary64.astype_float] rounds it to the nearest double, which
    matters for integers beyond 2^53. *)
Definition astype_float (c : cell) : num :=
  match c with
  | Num q => Some q
  | Flag b => Some (if b then 1 else 0)
  | NA | Str _ => None
  end.

(** A numeric column as a float array ([.values], [.astype(float)]). *)
Definition to_array (l : list cell) : list num := map astype_float l.

(** The entries a reduction with [skipna=True] looks at. *)
Fixpoint finite (arr : list num) : list Q :=
  match arr with
  | [] => []
  | Some q :: t => q :: finite t
  | None :: t => finite t
  end.

(** [Series.max()] and [Series.min()]: NaN entries are skipped, an array
    without any other entry gives NaN. *)
Definition series_max (arr : list num) : num :=
  match finite arr with
  | [] => None
  | x :: t => Some (fold_left Qmax t x)
  end.

Definition series_min (arr : list num) : num :=
  match finite arr with
  | [] => None
  | x :: t => Some (fold_left Qmin t x)
  end.

(** The numeric routines of numpy, scipy and Python the code calls and does
    not define. *)
Record library := Library {
  np_sqrt : Q -> num;
  (** [np.corrcoef(a, b)[0, 1]] *)
  np_corrcoef : list num -> list num -> num;
  (** [spearmanr(a, b)]: the coefficient and the p-value *)
  sp_spearmanr : list num -> list num -> num * num;
  (** [str(x)] of a cell, as [astype(str)] applies it *)
  py_str : cell -> string
}.

End Float.
Import Float.

(** ** Statistics ([eda_dashboard.py]) *)

Module Stats.

(** The reductions of pandas that [compute_numeric_stats] calls, on a float
    array.  Each looks at the entries that are not NaN and gives NaN when
    there is none ([std]: fewer than two). *)

Definition Qsum (l : list Q) : Q := fold_left Qplus l 0.

Definition Qlen (l : list Q) : Q := inject_Z (Z.of_nat (length l)).

Fixpoint insert (x : Q) (l : list Q) : list Q :=
  match l with
  | [] => [x]
  | y :: t => if Qle_bool x y then x :: l else y :: insert x t
  end.

Definition sort (l : list Q) : list Q := fold_right insert [] l.

(** [Series.mean()] *)
Definition mean (arr : list num) : num :=
  match finite arr with
  | [] => None
  | v => Some (Qred (Qsum v / Qlen v))
  end.

(** [Series.median()] *)
Definition median (arr : list num) : num :=
  let v := sort (finite arr) in
  let n := length v in
  match n with
  | O => None
  | _ =>
      if Nat.even n
      then Some (Qred ((nth (n / 2 - 1) v 0 + nth (n / 2) v 0) / 2))
      else Some (nth (n / 2) v 0)
  end.

Definition count (x : Q) (l : list Q) : nat := length (filter (Qeq_bool x) l).

Fixpoint squeeze (l : list Q) : list Q :=
  match l with
  | [] => []
  | x :: t =>
      match t with
      | [] => [x]
      | y :: _ => if Qeq_bool x y then squeeze t else x :: squeeze t
      end
  end.

(** [Series.mode()]: the most frequent values, ascending. *)
Definition mode (arr : list num) : list Q :=
  let v := finite arr in
  let best := fold_right Nat.max O (map (fun x => count x v) v) in
  squeeze (sort (filter (fun x => Nat.eqb (count x v) best) v)).

(** [Series.std()], with one degree of freedom taken off. *)
Definition std (L : library) (arr : list num) : num :=
  let v := finite arr in
  if (length v <=? 1)%nat then None
  else
    let m := Qsum v / Qlen v in
    np_sqrt L (Qred (Qsum (map (fun x => (x - m) * (x - m)) v) / (Qlen v - 1))).

(** [Series.quantile(q)], linear interpolation between the two nearest
    ranks. *)
Definition quantile (q : Q) (arr : list num) : num :=
  let v := sort (finite arr) in
  match v with
  | [] => None
  | _ =>
      let h := (Qlen v - 1) * q in
      let lo := Z.to_nat (Qfloor h) in
      let frac := h - inject_Z (Qfloor h) in
      Some (Qred (nth lo v 0 + frac * (nth (S lo) v (nth lo v 0) - nth lo v 0)))
  end.

(** The dict [compute_numeric_stats] returns. *)
Record numeric_stats := NumericStats {
  st_mean : num;
  st_median : num;
  st_mode : num;
  st_std : num;
  st_min : num;
  st_max : num;
  st_q1 : num;
  st_q3 : num
}.

Definition compute_numeric_stats (L : library) (s : series) : numeric_stats :=
  let clean := to_array (dropna (values s)) in
  {| st_mean := mean clean;
     st_median := median clean;
     st_mode := if (0 <? length (mode clean))%nat
                then Some (nth 0 (mode clean) 0) else nan;
     st_std := std L clean;
     st_min := series_min clean;
     st_max := series_max clean;
     st_q1 := quantile (1 # 4) clean;
     st_q3 := quantile (3 # 4) clean |}.

(** What a Python call can end in. *)
Inductive outcome (A : Type) :=
| Return (v : A)
| Raise (exception : string).

Arguments Return {A} v.
Arguments Raise {A} exception.

(** A square array of floats, by rows. *)
Definition matrix := list (list num).

(** [m[i, j]] *)
Definition entry (m : matrix) (i j : nat) : num := nth j (nth i m []) nan.

(** [a.notna() & b.notna()] *)
Definition valid_mask (a b : list cell) : list bool :=
  map (fun ab => notna (fst ab) && notna (snd ab)) (combine a b).

(** [s[mask]]: the entries whose mask is set. *)
Definition select (mask : list bool) (l : list cell) : list cell :=
  map snd (filter fst (combine mask l)).

Definition empty_series : series := Series EmptyString Float64 [].

(** [numeric_df.iloc[:, i]] *)
Definition iloc (df : DataFrame) (i : nat) : series := nth i df empty_series.

(** The switch on [method]: Spearman on request, Pearson otherwise. *)
Definition coefficient (L : library) (method : string) (a b : list num) : num :=
  if (method =? "spearman")%string
  then fst (sp_spearmanr L a b)
  else np_corrcoef L a b.

(** The body of the double loop: what is stored in [corr_matrix[i, j]]. *)
Definition corr_cell (L : library) (numeric_df : DataFrame) (method : string)
    (i j : nat) : num :=
  if Nat.eqb i j then Some 1
  else
    let mask := valid_mask (values (iloc numeric_df i)) (values (iloc numeric_df j)) in
    let valid_data_i := to_array (select mask (values (iloc numeric_df i))) in
    let valid_data_j := to_array (select mask (values (iloc numeric_df j))) in
    if (1 <? length valid_data_i)%nat then
      let corr := coefficient L method valid_data_i valid_data_j in
      if negb (isnan corr) then corr else Some 0
    else Some 0.

(** The rows of two columns that survive pairwise deletion. *)
Definition surviving_rows (a b : list cell) : list (cell * cell) :=
  filter (fun ab => notna (fst ab) && notna (snd ab)) (combine a b).

(** [create_correlation_matrix]: [None] with fewer than two numeric
    columns, otherwise the array the double loop over [range(n_cols)]
    fills, every cell once. *)
Definition create_correlation_matrix (L : library) (df : DataFrame) (method : string)
    : outcome (option matrix) :=
  let numeric_df := select_dtypes is_number df in
  if (length numeric_df <? 2)%nat then Return None
  else
    let n_cols := length numeric_df in
    Return (Some (map (fun i => map (fun j => corr_cell L numeric_df method i j)
                                    (seq 0 n_cols))
                      (seq 0 n_cols))).

End Stats.
Import Stats.

(** ** Selector callbacks of the Dash applications *)

Module Dashboard.

Import Classifier.

(** One entry of a dropdown: [{"label": c, "value": c}]. *)
Record dropdown_option := DropdownOption {
  label : string;
  value : string
}.

(** [[{"label": c, "value": c} for c in cols]] *)
Definition options_for (cols : list string) : list dropdown_option :=
  map (fun c => {| label := c; value := c |}) cols.

(** [opts[0]["value"] if opts else None] *)
Definition first_or_none (opts : list dropdown_option) : option string :=
  match opts with
  | [] => None
  | o :: _ => Some (value o)
  end.

(** The eight properties the callback writes, in the order of its
    [Output] declarations. *)
Record outputs := Outputs {
  x_options : list dropdown_option;
  y_options : list dropdown_option;
  color_options : list dropdown_option;
  size_options : list dropdown_option;
  x_value : option string;
  y_value : option string;
  color_value : option string;
  size_value : option string
}.

(** [update_column_options] of [dash_plotter.py]; the table comes already
    decoded from the store. *)
Definition update_column_options (df : DataFrame) (plot_type : string) : outputs :=
  let (numeric, categorical) := infer_column_types df default_cat_threshold in
  let all_options := options_for (columns df) in
  let '(x_opts, y_opts, size_opts, color_opts) :=
    if plot_type =? "scatter" then
      (options_for numeric, options_for numeric, options_for numeric, all_options)
    else if (plot_type =? "box") || (plot_type =? "violin") then
      (options_for categorical, options_for numeric, [], all_options)
    else if plot_type =? "bar" then
      (options_for categorical, options_for numeric, [], all_options)
    else if plot_type =? "hist" then
      (options_for (numeric ++ categorical), [], [], all_options)
    else
      (all_options, all_options, all_options, all_options) in
  Outputs x_opts y_opts color_opts size_opts
          (first_or_none x_opts) (first_or_none y_opts) None None.

(** [eda_update_plot_options] of [eda_dashboard.py]. *)
Definition eda_update_plot_options (df : DataFrame) (plot_type : string) : outputs :=
  let (numeric, categorical) := infer_column_types df default_cat_threshold in
  let all_options := options_for (columns df) in
  let '(x_opts, y_opts, size_opts, color_opts) :=
    if plot_type =? "scatter" then
      (options_for numeric, options_for numeric, options_for numeric, all_options)
    else if (plot_type =? "box") || (plot_type =? "violin") then
      (options_for categorical, options_for numeric, [], all_options)
    else if plot_type =? "bar" then
      (options_for categorical, options_for numeric, [], all_options)
    else if plot_type =? "hist" then
      (options_for (numeric ++ categorical), [], [], all_options)
    else
      (all_options, all_options, all_options, all_options) in
  Outputs x_opts y_opts color_opts size_opts
          (first_or_none x_opts) (first_or_none y_opts) None None.

(** The columns behind the option lists of the callbacks, by plot type: x,
    y, size, color. *)
Definition eligible (df : DataFrame) (plot_type : string)
    : list string * list string * list string * list string :=
  let numeric := fst (infer_column_types df default_cat_threshold) in
  let categorical := snd (infer_column_types df default_cat_threshold) in
  let all := columns df in
  if plot_type =? "scatter" then (numeric, numeric, numeric, all)
  else if (plot_type =? "box") || (plot_type =? "violin") then (categorical, numeric, [], all)
  else if plot_type =? "bar" then (categorical, numeric, [], all)
  else if plot_type =? "hist" then (numeric ++ categorical, [], [], all)
  else (all, all, all, all).

(** The two applications. *)
Inductive application := DashPlotter | EdaDashboard.

Definition callback (app : application) : DataFrame -> string -> outputs :=
  match app with
  | DashPlotter => update_column_options
  | EdaDashboard => eda_update_plot_options
  end.

(** A change of the stored table or of the plot type fires the callback.
    Its inputs are the two [Input]s; it declares no [State], so what the
    dropdowns held before is not passed to it, and Dash overwrites the eight
    properties with what it returns. *)
Definition fire (app : application) (before : outputs)
    (df : DataFrame) (plot_type : string) : outputs :=
  callback app df plot_type.

End Dashboard.

(** ** The dropdown builder of [simple_plotter.py] *)

Module Plotter.

(** Values that go into the figure: Plotly's JSON-like arguments. *)
#[local] Unset Elimination Schemes.
Inductive pyval :=
| PNone
| PBool (b : bool)
| PInt (z : Z)
| PFloat (x : num)
| PStr (s : string)
| PCell (c : cell)
| PList (l : list pyval)
| PDict (d : list (string * pyval)).
#[local] Set Elimination Schemes.

Record button := Button {
  method : string;
  label : string;
  args : list pyval
}.

Definition is_numeric_series (s : series) : bool := is_numeric_dtype (dtype_of s).

(** [df[col]] for a label of the table.  The labels of a loaded table are
    distinct and [df[col]] is that column. *)
Definition get_column (df : DataFrame) (col : string) : series :=
  hd (Series col Object []) (getitem df col).

(** [s.tolist()] *)
Definition tolist (s : series) : pyval := PList (map PCell (values s)).

(** [s.astype(str).tolist()] *)
Definition astype_str_tolist (L : library) (s : series) : pyval :=
  PList (map (fun c => PStr (py_str L c)) (values s)).

(** An entry of [extra_payload]: a value, or a callable given the label. *)
Inductive payload :=
| Constant (v : pyval)
| Callable (f : string -> pyval).

Definition make_buttons_for_attr (df : DataFrame) (attr_path : string)
    (transform : series -> pyval) (method : string)
    (relayout_fn : option (string -> pyval))
    (extra_payload : list (string * payload)) : list button :=
  let cols := columns df in
  map (fun col =>
         let arr := transform (get_column df col) in
         let restyle_dict :=
           if (method =? "restyle") || (method =? "update") then
             PDict ((attr_path, PList [arr])
                    :: map (fun kv =>
                              (fst kv,
                               match snd kv with
                               | Callable v => v col
                               | Constant v => v
                               end))
                           extra_payload)
           else PNone in
         let relayout :=
           match relayout_fn with
           | Some f => f col
           | None => PDict []
           end in
         let args :=
           if method =? "restyle" then [restyle_dict; PList [PInt 0]]
           else if method =? "update" then [restyle_dict; relayout]
           else if method =? "relayout" then [PList [PInt 0]; relayout]
           else [restyle_dict; PList [PInt 0]] in
         Button method col args)
      cols.

Definition axis_transform (L : library) (s : series) : pyval :=
  if negb (is_numeric_series s) then astype_str_tolist L s else tolist s.

Definition axis_title (axis : string) (col : string) : pyval :=
  PDict [(axis, PDict [("title", PDict [("text", PStr col)])])].

Definition x_buttons (L : library) (df : DataFrame) : list button :=
  make_buttons_for_attr df "x" (axis_transform L) "update"
    (Some (axis_title "xaxis")) [].

Definition y_buttons (L : library) (df : DataFrame) : list button :=
  make_buttons_for_attr df "y" (axis_transform L) "update"
    (Some (axis_title "yaxis")) [].

Definition color_buttons (df : DataFrame) : list button :=
  make_buttons_for_attr df "marker.color" tolist "restyle" None
    [("marker.colorscale",
      Callable (fun col => if is_numeric_series (get_column df col)
                           then PStr "Viridis" else PNone));
     ("marker.showscale",
      Callable (fun col => if is_numeric_series (get_column df col)
                           then PBool true else PBool false))].

(** [size_transform]: 10 for every row of a column that is not numeric or
    has no spread, otherwise the linear rescaling.  This is the transform
    in exact arithmetic; [Binary64.size_transform] is the same code on
    doubles. *)
Definition size_transform (s : series) : list num :=
  if negb (is_numeric_series s) then repeat (Some 10%Q) (length (values s))
  else
    let arr := to_array (values s) in
    let rng := sub (series_max arr) (series_min arr) in
    if eqb rng (Some 0%Q) || isnan rng then repeat (Some 10%Q) (length arr)
    else
      map (fun v => add (Some 5%Q)
                        (mul (div (sub v (series_min arr)) rng) (Some 20%Q)))
          arr.

(** The rescaling as the specification writes it:
    [5 + 20 * (v - min) / (max - min)], NaN staying NaN. *)
Definition scaled_by_spec (mn mx : Q) (x : num) : num :=
  match x with
  | Some v => Some (Qred (5 + 20 * (v - mn) / (mx - mn)))
  | None => None
  end.

Definition size_buttons (df : DataFrame) : list button :=
  make_buttons_for_attr df "marker.size"
    (fun s => PList (map PFloat (size_transform s))) "restyle" None [].

End Plotter.

(** ** Sample tables *)

Module Samples.

Import Classifier Dashboard Plotter.

Definition q (z : Z) : cell := Num (inject_Z z).

(** A text column and two float columns, as in the iris table. *)
Definition flowers : DataFrame :=
  [ Series "species" Object [Str "setosa"; Str "setosa"; Str "virginica"];
    Series "petal_len" Float64 [Num (14 # 10); Num (13 # 10); Num (6 # 1)];
    Series "petal_wid" Float64 [Num (2 # 10); NA; Num (25 # 10)] ].

(** A low-cardinality integer column in front of a text column. *)
Definition orders : DataFrame :=
  [ Series "size" Int64 [q 2; q 3; q 2; q 4];
    Series "day" Object [Str "Sun"; Str "Sun"; Str "Sat"; Str "Sat"] ].

(** One numeric column only. *)
Definition single : DataFrame :=
  [ Series "tip" Float64 [q 1; q 2; q 3];
    Series "day" Object [Str "Sun"; Str "Sun"; Str "Sat"] ].

Definition all_null : series := Series "x" Float64 [NA; NA; NA].

Definition species : series :=
  Series "species" Object [Str "setosa"; Str "setosa"; Str "virginica"].

(** A float column with a missing entry. *)
Definition widths : series :=
  Series "petal_wid" Float64 [Num (2 # 10); NA; Num (25 # 10); Num (1 # 1)].

(** An integer column holding one value. *)
Definition flat : series := Series "k" Int64 [q 3; q 3; q 3].

(** Stand-ins for the library routines, to run the model on the samples:
    the covariance in place of the coefficient, no square root. *)
Definition dot (a b : list num) : num :=
  fold_left add (map (fun ab => mul (fst ab) (snd ab)) (combine a b)) (Some 0%Q).

Definition toy_library : library :=
  Library (fun _ => None) dot (fun a b => (dot a b, nan)) (fun _ => EmptyString).

(** A library whose coefficients are always NaN. *)
Definition nan_library : library :=
  Library (fun _ => None) (fun _ _ => nan) (fun _ _ => (nan, nan)) (fun _ => EmptyString).

End Samples.

(** ** Uploads ([parse_upload] and the upload callbacks) *)

Module Upload.

(** [s.split(",", 1)]: the text before the first comma (character 44) and,
    when there is a comma, the text after it. *)
Definition comma : Ascii.ascii := Ascii.ascii_of_nat 44.

Fixpoint split_comma (s : string) : string * option string :=
  match s with
  | EmptyString => (EmptyString, None)
  | String c rest =>
      if Ascii.eqb c comma then (EmptyString, Some rest)
      else let (h, t) := split_comma rest in (String c h, t)
  end.

(** The decoding and parsing routines of the standard library and pandas.
    An exception is kept as its text, which is what the callbacks print. *)
Record io := IO {
  b64decode : string -> outcome string;
  read_csv : string -> outcome DataFrame;
  read_excel : string -> outcome DataFrame;
  (** [df.to_json(date_format="iso", orient="split")] *)
  to_json : DataFrame -> string;
  (** [pd.read_json(..., orient="split")] *)
  read_json : string -> outcome DataFrame
}.

Definition unpack_error : string := "not enough values to unpack (expected 2, got 1)".

(** [parse_upload], the same function in [eda_dashboard.py] and
    [dash_plotter.py]. *)
Definition parse_upload (P : io) (contents filename : string) : outcome DataFrame :=
  match split_comma contents with
  | (_, None) => Raise unpack_error
  | (header, Some encoded) =>
      match b64decode P encoded with
      | Raise e => Raise e
      | Return data =>
          match read_csv P data with
          | Return df => Return df
          | Raise _ =>
              match read_excel P data with
              | Return df => Return df
              | Raise e =>
                  Raise ("Unable to parse uploaded file '" ++ filename ++ "': " ++ e)%string
              end
          end
      end
  end.

(** [len(df)]: the number of rows, read on the first column. *)
Definition n_rows (df : DataFrame) : nat :=
  match df with
  | [] => O
  | s :: _ => length (values s)
  end.

(** [str(n)] for a count. *)
Definition show (n : nat) : string :=
  DecimalString.NilEmpty.string_of_uint (Nat.to_uint n).

(** [handle_upload] of [dash_plotter.py]: the new store and the line shown
    under the upload box. *)
Definition handle_upload (P : io) (contents : option string) (filename : string)
    (current_json : string) : string * string :=
  match contents with
  | None => (current_json, "Using example dataset")
  | Some contents =>
      match parse_upload P contents filename with
      | Raise e => (current_json, ("Upload failed: " ++ e)%string)
      | Return df =>
          (to_json P df,
           ("Loaded: " ++ filename ++ " (" ++ show (n_rows df) ++ " rows)")%string)
      end
  end.

Definition summary (df : DataFrame) : string :=
  (show (n_rows df) ++ " rows × " ++ show (length (columns df)) ++ " columns")%string.

(** [handle_eda_upload] of [eda_dashboard.py]: store, upload line and data
    summary.  Without an upload the stored table is decoded outside any
    [try]. *)
Definition handle_eda_upload (P : io) (contents : option string) (filename : string)
    (current_json : string) : outcome (string * string * string) :=
  match contents with
  | None =>
      match read_json P current_json with
      | Raise e => Raise e
      | Return df => Return (current_json, "Using example dataset", summary df)
      end
  | Some contents =>
      match parse_upload P contents filename with
      | Return df =>
          Return (to_json P df, ("✓ Loaded: " ++ filename)%string, summary df)
      | Raise e =>
          Return (current_json, ("❌ Upload failed: " ++ e)%string, EmptyString)
      end
  end.

End Upload.

(** ** Visibility and figure callbacks *)

Module Figures.

Import Upload.

(** A [style] dict. *)
Definition style := list (string * string).

Definition hidden : style := [("display", "none")].

(** [toggle_visibility] of [dash_plotter.py]: the styles of the size and
    of the y container. *)
Definition toggle_visibility (plot_type : string) : style * style :=
  let size_style :=
    if (plot_type =? "box") || (plot_type =? "violin") then hidden else [] in
  let y_style := if plot_type =? "hist" then hidden else [] in
  (size_style, y_style).

(** [eda_toggle_plot_visibility] of [eda_dashboard.py]. *)
Definition eda_toggle_plot_visibility (plot_type : string) : style * style :=
  let size_style :=
    if (plot_type =? "box") || (plot_type =? "violin") then hidden else [] in
  let y_style := if plot_type =? "hist" then hidden else [] in
  (size_style, y_style).

(** A call of a [plotly.express] function: its name and keyword
    arguments; [None] is an argument not given. *)
Record px_call := PxCall {
  px_function : string;
  px_frame : option DataFrame;
  px_x : option string;
  px_y : option string;
  px_color : option string;
  px_size : option string;
  px_hover_data : option (list string);
  px_title : option string
}.

(** Plotly, as far as the callbacks use it: [px] builds a figure or
    raises, [transition] is [fig.update_layout(transition_duration=200)]. *)
Record plotly (F : Type) := Plotly {
  px : px_call -> outcome F;
  transition : F -> F
}.

(** What a figure callback returns: [{}] or a figure. *)
Inductive graph (F : Type) :=
| EmptyDict
| Figure (fig : F).

Arguments EmptyDict {F}.
Arguments Figure {F} fig.

(** Truth value of a dropdown value: [None] and the empty string are
    false. *)
Definition truthy (v : option string) : bool :=
  match v with
  | Some (String _ _) => true
  | _ => false
  end.

(** [v if v else None] *)
Definition or_none (v : option string) : option string :=
  if truthy v then v else None.

(** [return px.f(df, title=...)] *)
Definition placeholder {F} (P : plotly F) (f : string) (df : DataFrame)
    (title : string) : outcome (graph F) :=
  match px P (PxCall f (Some df) None None None None None (Some title)) with
  | Return fig => Return (Figure fig)
  | Raise e => Raise e
  end.

(** [fig = px.f(...); fig.update_layout(transition_duration=200); return fig] *)
Definition chart {F} (P : plotly F) (c : px_call) : outcome (graph F) :=
  match px P c with
  | Return fig => Return (Figure (transition P fig))
  | Raise e => Raise e
  end.

(** [px.scatter(title=...)] of the [except] clause. *)
Definition error_figure {F} (P : plotly F) (title : string) : outcome (graph F) :=
  match px P (PxCall "scatter" None None None None None None (Some title)) with
  | Return fig => Return (Figure fig)
  | Raise e => Raise e
  end.

Definition select_x_y : string := "Select X (categorical) and Y (numeric)".

(** The prompt the callbacks ask for when a required axis is unset: the
    plotting function of the plot type on the table alone, with the title
    that names what to select. *)
Definition prompt (df : DataFrame) (plot_type : string) : px_call :=
  if plot_type =? "scatter" then
    PxCall "scatter" (Some df) None None None None None (Some "Select X and Y columns")
  else if plot_type =? "hist" then
    PxCall "histogram" (Some df) None None None None None (Some "Select X column")
  else
    PxCall plot_type (Some df) None None None None None (Some select_x_y).

(** [update_figure] of [dash_plotter.py]. *)
Definition update_figure {F} (P : plotly F) (df : DataFrame) (plot_type : string)
    (x y color size : option string) : outcome (graph F) :=
  if (n_rows df =? 0)%nat then Return EmptyDict
  else
    let body :=
      if plot_type =? "scatter" then
        if negb (truthy x) || negb (truthy y)
        then placeholder P "scatter" df "Select X and Y columns"
        else chart P (PxCall "scatter" (Some df) x y (or_none color) (or_none size)
                             (Some (columns df)) None)
      else if plot_type =? "box" then
        if negb (truthy x) || negb (truthy y)
        then placeholder P "box" df select_x_y
        else chart P (PxCall "box" (Some df) x y (or_none color) None None None)
      else if plot_type =? "violin" then
        if negb (truthy x) || negb (truthy y)
        then placeholder P "violin" df select_x_y
        else chart P (PxCall "violin" (Some df) x y (or_none color) None None None)
      else if plot_type =? "bar" then
        if negb (truthy x) || negb (truthy y)
        then placeholder P "bar" df select_x_y
        else chart P (PxCall "bar" (Some df) x y (or_none color) None None None)
      else if plot_type =? "hist" then
        if negb (truthy x)
        then placeholder P "histogram" df "Select X column"
        else chart P (PxCall "histogram" (Some df) x None (or_none color) None None None)
      else
        chart P (PxCall "scatter" (Some df) x y (or_none color) None None None) in
    match body with
    | Return g => Return g
    | Raise e => error_figure P ("Error building plot: " ++ e)%string
    end.

(** [eda_update_plot] of [eda_dashboard.py]. *)
Definition eda_update_plot {F} (P : plotly F) (df : DataFrame) (plot_type : string)
    (x y color size : option string) : outcome (graph F) :=
  if (n_rows df =? 0)%nat then Return EmptyDict
  else
    let body :=
      if plot_type =? "scatter" then
        if negb (truthy x) || negb (truthy y)
        then placeholder P "scatter" df "Select X and Y columns"
        else chart P (PxCall "scatter" (Some df) x y (or_none color) (or_none size)
                             (Some (columns df)) None)
      else if plot_type =? "box" then
        if negb (truthy x) || negb (truthy y)
        then placeholder P "box" df select_x_y
        else chart P (PxCall "box" (Some df) x y (or_none color) None None None)
      else if plot_type =? "violin" then
        if negb (truthy x) || negb (truthy y)
        then placeholder P "violin" df select_x_y
        else chart P (PxCall "violin" (Some df) x y (or_none color) None None None)
      else if plot_type =? "bar" then
        if negb (truthy x) || negb (truthy y)
        then placeholder P "bar" df select_x_y
        else chart P (PxCall "bar" (Some df) x y (or_none color) None None None)
      else if plot_type =? "hist" then
        if negb (truthy x)
        then placeholder P "histogram" df "Select X column"
        else chart P (PxCall "histogram" (Some df) x None (or_none color) None None None)
      else
        chart P (PxCall "scatter" (Some df) x y None None None None) in
    match body with
    | Return g => Return g
    | Raise e => error_figure P ("Error: " ++ e)%string
    end.

End Figures.

(** ** The correlation tab ([eda_update_corr_heatmap]) *)

Module Heatmap.

Import Classifier.

(** [df[labels]]: the columns with these labels, in the order asked; a
    label the table does not have is a KeyError. *)
Definition getitem_list (df : DataFrame) (labels : list string) : outcome DataFrame :=
  if forallb (fun c => mem c (columns df)) labels
  then Return (flat_map (getitem df) labels)
  else Raise "KeyError".

(** What the callback hands to the graph: a titled empty scatter, or the
    heatmap with its values, labels, cell texts and title. *)
Inductive heatmap_figure (T : Type) :=
| Notice (title : string)
| HeatmapFigure (z : option matrix) (x y : list string) (text : T) (title : string).

Arguments Notice {T} title.
Arguments HeatmapFigure {T} z x y text title.

Definition upper (c : Ascii.ascii) : Ascii.ascii :=
  let n := Ascii.nat_of_ascii c in
  if ((97 <=? n) && (n <=? 122))%nat then Ascii.ascii_of_nat (n - 32) else c.

Definition lower (c : Ascii.ascii) : Ascii.ascii :=
  let n := Ascii.nat_of_ascii c in
  if ((65 <=? n) && (n <=? 90))%nat then Ascii.ascii_of_nat (n + 32) else c.

Fixpoint lower_all (s : string) : string :=
  match s with
  | EmptyString => EmptyString
  | String c t => String (lower c) (lower_all t)
  end.

(** [str.capitalize()] on ASCII text. *)
Definition capitalize (s : string) : string :=
  match s with
  | EmptyString => EmptyString
  | String c t => String (upper c) (lower_all t)
  end.

(** [eda_update_corr_heatmap]; [np_round] is [np.round(corr_matrix, 2)],
    applied to whatever [create_correlation_matrix] returned. *)
Definition eda_update_corr_heatmap {T} (L : library)
    (np_round : option matrix -> outcome T)
    (df : DataFrame) (method : string) (numeric_cols : list string)
    : outcome (heatmap_figure T) :=
  match getitem_list df numeric_cols with
  | Raise e => Raise e
  | Return numeric_df =>
      if (length numeric_df <? 2)%nat
      then Return (Notice "Need at least 2 numeric columns to compute correlations")
      else
        match create_correlation_matrix L df method with
        | Raise e => Raise e
        | Return corr_matrix =>
            let col_names := columns numeric_df in
            match np_round corr_matrix with
            | Raise e => Raise e
            | Return text =>
                Return (HeatmapFigure corr_matrix col_names col_names text
                          ("Pairwise Correlations (" ++ capitalize method ++ ")")%string)
            end
        end
  end.

(** [update_column_type_stores]: the two stores of the dashboard. *)
Definition update_column_type_stores (df : DataFrame) : list string * list string :=
  infer_column_types df default_cat_threshold.

End Heatmap.

(** ** The stand-alone figure ([make_scatter_with_dropdowns]) *)

Module Builder.

Import Plotter.

(** [l[0]] *)
Definition item0 (l : list string) : outcome string :=
  match l with
  | [] => Raise "IndexError"
  | c :: _ => Return c
  end.

(** [l.index(c)] *)
Fixpoint index (c : string) (l : list string) : outcome nat :=
  match l with
  | [] => Raise "ValueError"
  | d :: t =>
      if d =? c then Return O
      else match index c t with
           | Return n => Return (S n)
           | Raise e => Raise e
           end
  end.

(** [df[col].tolist()], a KeyError when the table has no such label. *)
Definition column_tolist (df : DataFrame) (col : string) : outcome pyval :=
  match getitem df col with
  | [] => Raise "KeyError"
  | s :: _ => Return (tolist s)
  end.

(** One dropdown of [updatemenus]: the active button, the buttons and the
    position; anchor, direction and [showactive] are the same for all. *)
Record menu := Menu {
  active : nat;
  buttons : list button;
  menu_x : Q;
  menu_y : Q
}.

(** The figure, as far as it depends on the table: the trace, the five
    dropdowns and the axis titles.  (The text annotations, the margin and
    the title the function adds are fixed.) *)
Record scatter_figure := ScatterFigure {
  trace_x : pyval;
  trace_y : pyval;
  marker_size : Z;
  marker_color : pyval;
  updatemenus : list menu;
  xaxis_title : string;
  yaxis_title : string
}.

(** Plotly's graph objects, as far as the builder calls them.  Both calls
    validate what they are given and may raise: [go_scatter] is
    [go.Scatter(x=..., y=..., mode="markers", marker=dict(size=..., color=...))],
    [update_layout] is [fig.update_layout(updatemenus=..., ...)]. *)
Record graph_objects := GraphObjects {
  go_scatter : pyval -> pyval -> Z -> pyval -> outcome unit;
  update_layout : list menu -> outcome unit
}.

(** The theme buttons, one per entry of [pio.templates]. *)
Definition theme_buttons (templates : list (string * pyval)) : list button :=
  map (fun t => Button "relayout" (fst t) [PDict [("template", snd t)]]) templates.

Definition numeric_cols (df : DataFrame) : list string :=
  filter (fun c => is_numeric_series (get_column df c)) (columns df).

(** [default_x], when not given: the first numeric column, else the first
    column. *)
Definition resolve_default_x (df : DataFrame) (default_x : option string)
    : outcome string :=
  match default_x with
  | Some c => Return c
  | None =>
      if (1 <=? length (numeric_cols df))%nat then item0 (numeric_cols df)
      else item0 (columns df)
  end.

(** [default_y], when not given: the second numeric column, else the
    second column, else the first. *)
Definition resolve_default_y (df : DataFrame) (default_y : option string)
    : outcome string :=
  match default_y with
  | Some c => Return c
  | None =>
      if (2 <=? length (numeric_cols df))%nat
      then Return (nth 1 (numeric_cols df) EmptyString)
      else if (1 <? length (columns df))%nat
           then Return (nth 1 (columns df) EmptyString)
           else item0 (columns df)
  end.

(** [default_color] *)
Definition resolve_default_color (df : DataFrame) (default_x default_y : string)
    : outcome string :=
  if negb (default_x =? default_y) then Return default_x
  else match numeric_cols df with
       | c :: _ => Return c
       | [] => item0 (columns df)
       end.

Definition make_scatter_with_dropdowns (G : graph_objects) (L : library)
    (templates : list (string * pyval))
    (df : DataFrame) (default_x default_y : option string) : outcome scatter_figure :=
  let cols := columns df in
  match resolve_default_x df default_x with
  | Raise e => Raise e
  | Return default_x =>
  match resolve_default_y df default_y with
  | Raise e => Raise e
  | Return default_y =>
  match resolve_default_color df default_x default_y with
  | Raise e => Raise e
  | Return default_color =>
  match column_tolist df default_color with
  | Raise e => Raise e
  | Return color =>
  match column_tolist df default_x with
  | Raise e => Raise e
  | Return xs =>
  match column_tolist df default_y with
  | Raise e => Raise e
  | Return ys =>
  match go_scatter G xs ys 10 color with
  | Raise e => Raise e
  | Return _ =>
  match index default_x cols with
  | Raise e => Raise e
  | Return active_x =>
  match index default_y cols with
  | Raise e => Raise e
  | Return active_y =>
  match (if Classifier.mem default_color cols then index default_color cols
         else Return O) with
  | Raise e => Raise e
  | Return default_color_index =>
      let updatemenus :=
        [ Menu active_x (x_buttons L df) 0 (11 # 10);
          Menu active_y (y_buttons L df) (2 # 10) (105 # 100);
          Menu default_color_index (color_buttons df) (4 # 10) (11 # 10);
          Menu 0 (size_buttons df) (6 # 10) (11 # 10);
          Menu 0 (theme_buttons templates) (8 # 10) (11 # 10) ] in
      match update_layout G updatemenus with
      | Raise e => Raise e
      | Return _ =>
          Return (ScatterFigure xs ys 10 color updatemenus default_x default_y)
      end
  end end end end end end end end end end.

End Builder.

(** ** More sample data *)

Module MoreSamples.

Import Upload Figures Heatmap Builder.

(** Parsing routines that accept the text [a,b] as a two-column CSV and
    nothing else. *)
Definition two_columns : DataFrame :=
  [ Series "a" Int64 [Num 1; Num 2]; Series "b" Int64 [Num 3; Num 4] ].

Definition toy_io : io :=
  IO (fun s => Return s)
     (fun data => if data =? "a,b" then Return two_columns else Raise "no columns")
     (fun _ => Raise "not a workbook")
     (fun df => "json")
     (fun _ => Return two_columns).

(** A plotting back end that records the call. *)
Definition recording : plotly px_call := Plotly (fun c => Return c) (fun c => c).

(** A back end that refuses every call with data and draws the rest. *)
Definition refusing : plotly px_call :=
  Plotly (fun c => match px_frame c with
                   | Some _ => Raise "bad column"
                   | None => Return c
                   end)
         (fun c => c).

(** The flowers with a text column removed and a third number column, all
    missing, added. *)
Definition flowers_more : DataFrame :=
  [ Series "petal_len" Float64 [Num (14 # 10); Num (13 # 10); Num (6 # 1)];
    Series "petal_wid" Float64 [Num (2 # 10); NA; Num (25 # 10)];
    Series "sepal_len" Float64 [NA; NA; NA] ].

(** Graph objects that accept everything. *)
Definition lenient : graph_objects :=
  GraphObjects (fun _ _ _ _ => Return tt) (fun _ => Return tt).

(** Graph objects that, like Plotly, refuse text as marker colors. *)
Definition strict : graph_objects :=
  GraphObjects
    (fun _ _ _ color =>
       match color with
       | Plotter.PList (Plotter.PCell (Str _) :: _) => Raise "ValueError"
       | _ => Return tt
       end)
    (fun _ => Return tt).

(** A table without a numeric column. *)
Definition words : DataFrame :=
  [ Series "day" Object [Str "Sun"; Str "Sat"];
    Series "time" Object [Str "Dinner"; Str "Lunch"] ].

End MoreSamples.

(** ** Binary64: the arithmetic the Python code runs on

    The rational floats above are exact.  This module replays the same
    code on IEEE 754 binary64 numbers (the kernel's primitive floats), to
    run it where rounding, overflow and infinities matter. *)

Module Binary64.

Definition f64 := PrimFloat.float.

(** The double nearest to an integer (infinite when out of range). *)
Definition of_Z (z : Z) : f64 :=
  FloatOps.SF2Prim (SpecFloat.binary_normalize FloatOps.prec FloatOps.emax z 0 false).

(** The double a rational is stored as: the correctly rounded quotient. *)
Definition to_f64 (q : Q) : f64 :=
  PrimFloat.div (of_Z (Qnum q)) (of_Z (Zpos (Qden q))).

(** The rational a finite double stands for; NaN and the infinities have
    none. *)
Definition of_f64 (x : f64) : num :=
  match FloatOps.Prim2SF x with
  | SpecFloat.S754_zero _ => Some 0
  | SpecFloat.S754_finite s m e =>
      let n := if s then Zneg m else Zpos m in
      Some (Qred (match e with
                  | Z0 => inject_Z n
                  | Zpos p => inject_Z (n * 2 ^ Zpos p)
                  | Zneg p => n # (2 ^ p)
                  end))
  | _ => None
  end.




Definition ten : f64 := of_Z 10.
Definition five : f64 := of_Z 5.
Definition twenty : f64 := of_Z 20.

(** [Series.astype(float)] on one cell: integers are rounded to the
    nearest double, booleans become 1.0 and 0.0, a missing entry is NaN. *)
Definition astype_float (c : cell) : f64 :=
  match c with
  | Num q => to_f64 q
  | Flag b => if b then PrimFloat.one else PrimFloat.zero
  | NA | Str _ => PrimFloat.nan
  end.

Definition dropna (arr : list f64) : list f64 :=
  filter (fun x => negb (PrimFloat.is_nan x)) arr.

(** [Series.max()] and [Series.min()], NaN skipped. *)
Definition series_max (arr : list f64) : f64 :=
  match dropna arr with
  | [] => PrimFloat.nan
  | x :: t => fold_left (fun m v => if PrimFloat.ltb m v then v else m) t x
  end.

Definition series_min (arr : list f64) : f64 :=
  match dropna arr with
  | [] => PrimFloat.nan
  | x :: t => fold_left (fun m v => if PrimFloat.ltb v m then v else m) t x
  end.

(** [size_transform] of [simple_plotter.py] on binary64. *)
Definition size_transform (s : series) : list f64 :=
  if negb (Plotter.is_numeric_series s) then repeat ten (length (values s))
  else
    let arr := map astype_float (values s) in
    let rng := PrimFloat.sub (series_max arr) (series_min arr) in
    if PrimFloat.eqb rng PrimFloat.zero || PrimFloat.is_nan rng
    then repeat ten (length arr)
    else
      map (fun v =>
             PrimFloat.add five
               (PrimFloat.mul (PrimFloat.div (PrimFloat.sub v (series_min arr)) rng)
                              twenty))
          arr.

(** [np.corrcoef(a, b)[0, 1]] as numpy computes it: the covariance matrix
    of the centred rows scaled by [1 / (N - 1)], divided by the standard
    deviation of the row and then by that of the column, and clipped to
    [-1, 1].  Sums run left to right. *)
Definition fsum (l : list f64) : f64 := fold_left PrimFloat.add l PrimFloat.zero.

Definition mean (l : list f64) : f64 :=
  PrimFloat.div (fsum l) (of_Z (Z.of_nat (length l))).

Definition dot (a b : list f64) : f64 :=
  fsum (map (fun ab => PrimFloat.mul (fst ab) (snd ab)) (combine a b)).

Definition clip (x : f64) : f64 :=
  if PrimFloat.ltb x (PrimFloat.opp PrimFloat.one) then PrimFloat.opp PrimFloat.one
  else if PrimFloat.ltb PrimFloat.one x then PrimFloat.one
  else x.

Definition corrcoef (a b : list f64) : f64 :=
  let da := map (fun x => PrimFloat.sub x (mean a)) a in
  let db := map (fun x => PrimFloat.sub x (mean b)) b in
  let fact := PrimFloat.div PrimFloat.one
                (PrimFloat.sub (of_Z (Z.of_nat (length a))) PrimFloat.one) in
  let c00 := PrimFloat.mul (dot da da) fact in
  let c01 := PrimFloat.mul (dot da db) fact in
  let c11 := PrimFloat.mul (dot db db) fact in
  clip (PrimFloat.div (PrimFloat.div c01 (PrimFloat.sqrt c00)) (PrimFloat.sqrt c11)).

Definition array (a : list num) : list f64 :=
  map (fun x => match x with Some q => to_f64 q | None => PrimFloat.nan end) a.

(** The library with numpy's binary64 Pearson coefficient and square
    root.  (Spearman and [str] are not replayed: NaN and the empty text.) *)
Definition numpy : library :=
  Library (fun q => of_f64 (PrimFloat.sqrt (to_f64 q)))
          (fun a b => of_f64 (corrcoef (array a) (array b)))
          (fun _ _ => (nan, nan))
          (fun _ => EmptyString).

End Binary64.

(** ** Sample columns for binary64 *)

Module Binary64Samples.

(** Two integer columns. *)
Definition squares : DataFrame :=
  [ Series "a" Int64 [Num 1; Num 2; Num 3; Num 4];
    Series "b" Int64 [Num 1; Num 4; Num 9; Num 100] ].




(** A float column of doubles with a missing entry. *)
Definition quarters : series :=
  Series "w" Float64 [Num (1 # 4); NA; Num (5 # 2); Num 1].

End Binary64Samples.

(** * Properties *)

(** ** Column classification *)

Section ClassifierFacts.

Import Classifier.

Lemma mem_In c l : mem c l = true <-> In c l.
Proof.
  unfold mem. rewrite existsb_exists. split.
  - intros [x [Hx He]]. apply String.eqb_eq in He. now subst.
  - intros H. exists c. split; [assumption | apply String.eqb_refl].
Qed.

Lemma dedupe_from seen l :
  map snd
    (filter (fun ic => negb (mem (snd ic) (firstn (fst ic) (seen ++ l))))
            (combine (seq (length seen) (length l)) l))
  = keep_new seen l.
Proof.
  revert seen. induction l as [|x t IH]; intros seen; [reflexivity|].
  cbn [length seq combine filter fst snd keep_new].
  replace (firstn (length seen) (seen ++ x :: t)) with seen
    by (rewrite firstn_app, firstn_all, Nat.sub_diag; cbn; now rewrite app_nil_r).
  specialize (IH (seen ++ [x])).
  rewrite <- app_assoc in IH. cbn [app] in IH.
  rewrite length_app in IH. cbn [length] in IH.
  rewrite Nat.add_1_r in IH.
  destruct (mem x seen); cbn [negb map snd]; now rewrite IH.
Qed.

Lemma dedupe_keep_new l : dedupe l = keep_new [] l.
Proof. exact (dedupe_from [] l). Qed.

Lemma keep_new_In seen l x :
  In x (keep_new seen l) <-> In x l /\ ~ In x seen.
Proof.
  revert seen. induction l as [|y t IH]; intros seen; cbn [keep_new].
  - cbn. tauto.
  - destruct (mem y seen) eqn:Hm.
    + rewrite IH. apply mem_In in Hm. rewrite in_app_iff. cbn.
      split.
      * intros [Ht Hn]. split; [now right | tauto].
      * intros [[->|Ht] Hn]; [contradiction|]. split; [assumption|].
        intros [Hs|[->|[]]]; [contradiction|]. contradiction.
    + assert (Hn : ~ In y seen) by (intros Hy; apply mem_In in Hy; congruence).
      cbn [In]. rewrite IH, in_app_iff. cbn.
      split.
      * intros [->|[Ht Hs]]; [tauto|]. split; [now right | tauto].
      * intros [[->|Ht] Hs]; [now left|].
        destruct (String.eqb_spec y x) as [->|Hne]; [now left|].
        right. split; [assumption|]. intros [H|[H|[]]]; [contradiction|congruence].
Qed.

Lemma keep_new_NoDup seen l : NoDup (keep_new seen l).
Proof.
  revert seen. induction l as [|y t IH]; intros seen; cbn [keep_new].
  - constructor.
  - destruct (mem y seen); [apply IH|].
    constructor; [|apply IH].
    rewrite keep_new_In, in_app_iff. cbn. tauto.
Qed.

Lemma dedupe_In l x : In x (dedupe l) <-> In x l.
Proof. rewrite dedupe_keep_new, keep_new_In. cbn. tauto. Qed.

Lemma dedupe_NoDup l : NoDup (dedupe l).
Proof. rewrite dedupe_keep_new. apply keep_new_NoDup. Qed.

Lemma keep_new_id seen l :
  NoDup l -> (forall x, In x l -> ~ In x seen) -> keep_new seen l = l.
Proof.
  revert seen. induction l as [|y t IH]; intros seen Hnd Hdis; [reflexivity|].
  cbn [keep_new]. inversion Hnd as [|? ? Hy Ht]; subst.
  destruct (mem y seen) eqn:Hm.
  - apply mem_In in Hm. exfalso. apply (Hdis y); [now left | assumption].
  - f_equal. apply IH; [assumption|].
    intros x Hx. rewrite in_app_iff. cbn.
    intros [Hs|[->|[]]]; [|contradiction].
    apply (Hdis x); [now right | assumption].
Qed.

Lemma dedupe_id l : NoDup l -> dedupe l = l.
Proof. intros H. rewrite dedupe_keep_new. apply keep_new_id; [assumption | intros x _ []]. Qed.

(** The loop appends, in order, the labels that pass the test. *)
Lemma fold_append_low_cardinality df thr numeric categorical :
  fold_left (append_low_cardinality df thr) numeric categorical
  = categorical ++ filter (low_cardinality df thr) numeric.
Proof.
  revert categorical. induction numeric as [|c t IH]; intros categorical; cbn.
  - now rewrite app_nil_r.
  - rewrite IH. unfold append_low_cardinality.
    destruct (low_cardinality df thr c); [now rewrite <- app_assoc | reflexivity].
Qed.

Lemma infer_column_types_eq df thr :
  infer_column_types df thr =
  (columns (select_dtypes is_number df),
   dedupe (columns (select_dtypes is_object_category_bool df)
           ++ filter (low_cardinality df thr) (columns (select_dtypes is_number df)))).
Proof. unfold infer_column_types. now rewrite fold_append_low_cardinality. Qed.

(** With unique labels a label names one column. *)
Lemma name_inj df c c' :
  NoDup (columns df) -> In c df -> In c' df -> name c = name c' -> c = c'.
Proof.
  unfold columns. induction df as [|d t IH]; cbn; intros Hnd Hc Hc' He; [contradiction|].
  inversion Hnd as [|? ? Hd Ht]; subst.
  destruct Hc as [->|Hc], Hc' as [->|Hc']; trivial.
  - exfalso. apply Hd. rewrite He. now apply in_map.
  - exfalso. apply Hd. rewrite <- He. now apply in_map.
  - now apply IH.
Qed.

Lemma getitem_unique df c :
  NoDup (columns df) -> In c df -> getitem df (name c) = [c].
Proof.
  unfold columns, getitem. induction df as [|d t IH]; cbn; intros Hnd Hc; [contradiction|].
  inversion Hnd as [|? ? Hd Ht]; subst.
  assert (Hnone : forall l, ~ In (name c) (map name l) ->
                   filter (fun s => name s =? name c) l = []).
  { induction l as [|e l IHl]; cbn; intros Hn; [reflexivity|].
    destruct (String.eqb_spec (name e) (name c)) as [He|He]; [exfalso; apply Hn; now left|].
    apply IHl. tauto. }
  destruct Hc as [->|Hc].
  - rewrite String.eqb_refl. f_equal. now apply Hnone.
  - destruct (String.eqb_spec (name d) (name c)) as [He|He].
    + exfalso. apply Hd. rewrite He. now apply in_map.
    + now apply IH.
Qed.

Lemma in_columns_select p df c :
  NoDup (columns df) -> In c df ->
  (In (name c) (columns (select_dtypes p df)) <-> p (dtype_of c) = true).
Proof.
  intros Hnd Hc. unfold columns, select_dtypes. rewrite in_map_iff. split.
  - intros [c' [He Hin]]. apply filter_In in Hin. destruct Hin as [Hin Hp].
    now rewrite <- (name_inj df c' c Hnd Hin Hc He).
  - intros Hp. exists c. split; [reflexivity|]. apply filter_In. now split.
Qed.

Lemma filter_Subseq (p : string -> bool) l : Subseq (filter p l) l.
Proof.
  induction l as [|x t IH]; cbn; [constructor|].
  destruct (p x); now constructor.
Qed.

Lemma select_Subseq p df : Subseq (columns (select_dtypes p df)) (columns df).
Proof.
  unfold columns, select_dtypes. induction df as [|c t IH]; cbn; [constructor|].
  destruct (p (dtype_of c)); cbn; now constructor.
Qed.

Lemma Subseq_In l m x : Subseq l m -> In x l -> In x m.
Proof.
  induction 1; cbn; intros Hx; [assumption | right; auto |].
  destruct Hx; [now left | right; auto].
Qed.

Lemma Subseq_NoDup l m : Subseq l m -> NoDup m -> NoDup l.
Proof.
  induction 1; intros Hnd; [constructor | |];
    inversion Hnd as [|? ? Hx Hm]; subst; [auto|].
  constructor; [|auto]. intros Hin. apply Hx. eapply Subseq_In; eassumption.
Qed.

Lemma Subseq_trans l m n : Subseq l m -> Subseq m n -> Subseq l n.
Proof.
  intros Hlm Hmn. revert l Hlm. induction Hmn; intros l0 Hlm.
  - assumption.
  - apply Subseq_skip. auto.
  - inversion Hlm; subst; [apply Subseq_skip | apply Subseq_keep]; auto.
Qed.

(** Missing entries do not count towards [nunique]. *)
Lemma nunique_dropna n d vs : nunique (Series n d vs) = nunique (Series n d (dropna vs)).
Proof.
  unfold nunique, dropna. cbn [values].
  assert (H : filter notna (filter notna vs) = filter notna vs).
  { induction vs as [|v t IH]; cbn; [reflexivity|].
    destruct (notna v) eqn:Hv; cbn; rewrite ?Hv, IH; reflexivity. }
  now rewrite H.
Qed.

Lemma low_cardinality_column df thr c :
  NoDup (columns df) -> In c df ->
  low_cardinality df thr (name c) = (Z.of_nat (nunique c) <=? thr)%Z.
Proof.
  intros Hnd Hc. unfold low_cardinality. now rewrite getitem_unique.
Qed.

(** C3.  For a table with distinct labels, every threshold and every
    column: the column is in the numeric list iff its dtype is a number
    dtype; it is in the categorical list iff its dtype is object, category
    or bool, or it is a number column with at most [cat_threshold] distinct
    non-null values.  A number column with exactly [cat_threshold] distinct
    values is categorical, one with [cat_threshold + 1] is not. *)
Theorem infer_column_types_roles (df : DataFrame) (cat_threshold : Z) (c : series) :
  NoDup (columns df) -> In c df ->
  let numeric := fst (infer_column_types df cat_threshold) in
  let categorical := snd (infer_column_types df cat_threshold) in
  (In (name c) numeric <-> is_number (dtype_of c) = true) /\
  (In (name c) categorical <->
     is_object_category_bool (dtype_of c) = true \/
     (is_number (dtype_of c) = true /\
      (Z.of_nat (length (unique (dropna (values c)))) <= cat_threshold)%Z)) /\
  (is_number (dtype_of c) = true ->
   Z.of_nat (nunique c) = cat_threshold -> In (name c) categorical) /\
  (is_number (dtype_of c) = true ->
   Z.of_nat (nunique c) = (cat_threshold + 1)%Z -> ~ In (name c) categorical).
Proof.
  intros Hnd Hc numeric categorical.
  subst numeric categorical. rewrite infer_column_types_eq. cbn [fst snd].
  assert (Hnum : In (name c) (columns (select_dtypes is_number df)) <->
                 is_number (dtype_of c) = true)
    by now apply in_columns_select.
  assert (Hcat : In (name c)
                   (dedupe (columns (select_dtypes is_object_category_bool df)
                            ++ filter (low_cardinality df cat_threshold)
                                 (columns (select_dtypes is_number df)))) <->
                 is_object_category_bool (dtype_of c) = true \/
                 (is_number (dtype_of c) = true /\
                  (Z.of_nat (nunique c) <= cat_threshold)%Z)).
  { rewrite dedupe_In, in_app_iff, filter_In, Hnum.
    rewrite (in_columns_select is_object_category_bool df c Hnd Hc).
    rewrite (low_cardinality_column df cat_threshold c Hnd Hc).
    rewrite Z.leb_le. tauto. }
  split; [exact Hnum|]. split; [exact Hcat|]. split.
  - intros Hn He. apply Hcat. right. split; [assumption | lia].
  - intros Hn He Hin. apply Hcat in Hin. destruct Hin as [Ho|[_ Hle]].
    + destruct (dtype_of c); discriminate.
    + lia.
Qed.

(** C4, the part that holds as the specification has it plus what the code
    does for the categorical list: with distinct labels, the numeric list
    is in table order and without duplicates; the categorical list is
    without duplicates and is the object, category and bool columns in
    table order followed by the low-cardinality number columns in table
    order. *)
Theorem infer_column_types_order (df : DataFrame) (cat_threshold : Z) :
  NoDup (columns df) ->
  let numeric := fst (infer_column_types df cat_threshold) in
  let categorical := snd (infer_column_types df cat_threshold) in
  let declared := columns (select_dtypes is_object_category_bool df) in
  let low := filter (low_cardinality df cat_threshold) numeric in
  Subseq numeric (columns df) /\ NoDup numeric /\
  NoDup categorical /\
  categorical = declared ++ low /\
  Subseq declared (columns df) /\ Subseq low (columns df).
Proof.
  intros Hnd numeric categorical declared low.
  subst numeric categorical declared low.
  rewrite infer_column_types_eq. cbn [fst snd].
  pose proof (select_Subseq is_number df) as Hn.
  pose proof (select_Subseq is_object_category_bool df) as Ho.
  pose proof (filter_Subseq (low_cardinality df cat_threshold)
                (columns (select_dtypes is_number df))) as Hl.
  pose proof (Subseq_trans Hl Hn) as Hl'.
  repeat split; trivial.
  - eapply Subseq_NoDup; eassumption.
  - apply dedupe_NoDup.
  - apply dedupe_id. apply NoDup_app.
    + eapply Subseq_NoDup; eassumption.
    + eapply Subseq_NoDup; eassumption.
    + intros x Hx Hx'. apply (@Subseq_In _ _ x Hl) in Hx'.
      unfold columns, select_dtypes in Hx, Hx'.
      apply in_map_iff in Hx. destruct Hx as [a [Ha Hina]].
      apply in_map_iff in Hx'. destruct Hx' as [b [Hb Hinb]].
      apply filter_In in Hina. apply filter_In in Hinb.
      destruct Hina as [Hina Hda], Hinb as [Hinb Hdb].
      assert (a = b) by (apply (name_inj df); trivial; congruence).
      subst b. destruct (dtype_of a); discriminate.
Qed.

Ltac distinct_labels := repeat constructor; cbn; intuition discriminate.

Lemma infer_column_types_roles_witness :
  NoDup (columns Samples.flowers) /\
  In (Series "petal_wid" Float64 [Num (2 # 10); NA; Num (25 # 10)]) Samples.flowers /\
  In "petal_wid" (snd (infer_column_types Samples.flowers 2)) /\
  ~ In "petal_wid" (snd (infer_column_types Samples.flowers 1)).
Proof.
  assert (Hnd : NoDup (columns Samples.flowers)) by distinct_labels.
  assert (Hin : In (Series "petal_wid" Float64 [Num (2 # 10); NA; Num (25 # 10)])
                   Samples.flowers) by (cbn; tauto).
  split; [exact Hnd|]. split; [exact Hin|]. split.
  - apply (infer_column_types_roles Samples.flowers 2 _ Hnd Hin); reflexivity.
  - apply (infer_column_types_roles Samples.flowers 1 _ Hnd Hin); reflexivity.
Defined.

(** C4 as the specification has it fails for the categorical list: a
    low-cardinality number column placed before a text column comes after
    it in the list. *)
Lemma categorical_order_counterexample :
  NoDup (columns Samples.orders) /\
  columns Samples.orders = ["size"; "day"] /\
  snd (infer_column_types Samples.orders 20) = ["day"; "size"] /\
  ~ Subseq (snd (infer_column_types Samples.orders 20)) (columns Samples.orders).
Proof.
  split; [distinct_labels|]. split; [reflexivity|]. split; [reflexivity|].
  cbv. intros H.
  repeat match goal with
         | S : Subseq _ _ |- _ => inversion S; clear S; subst
         end.
Qed.

Lemma infer_column_types_order_witness :
  NoDup (columns Samples.orders) /\
  snd (infer_column_types Samples.orders 20)
  = columns (select_dtypes is_object_category_bool Samples.orders)
    ++ filter (low_cardinality Samples.orders 20)
         (fst (infer_column_types Samples.orders 20)).
Proof.
  assert (Hnd : NoDup (columns Samples.orders)) by distinct_labels.
  split; [exact Hnd|].
  apply (infer_column_types_order Samples.orders 20 Hnd).
Defined.

End ClassifierFacts.

(** ** The correlation matrix *)

Section CorrelationFacts.

Variable L : library.

Lemma valid_mask_comm a b : valid_mask a b = valid_mask b a.
Proof.
  unfold valid_mask. revert b.
  induction a as [|x a IH]; intros [|y b]; cbn; trivial.
  now rewrite IH, andb_comm.
Qed.

Lemma select_mask_l a b :
  select (valid_mask a b) a = map fst (surviving_rows a b).
Proof.
  unfold select, valid_mask, surviving_rows. revert b.
  induction a as [|x a IH]; intros [|y b]; cbn; trivial.
  destruct (notna x && notna y); cbn; now rewrite IH.
Qed.

Lemma select_mask_r a b :
  select (valid_mask a b) b = map snd (surviving_rows a b).
Proof.
  unfold select, valid_mask, surviving_rows. revert b.
  induction a as [|x a IH]; intros [|y b]; cbn; trivial.
  destruct (notna x && notna y); cbn; now rewrite IH.
Qed.

(** What the loop body stores off the diagonal, in terms of the surviving
    rows. *)
Lemma corr_cell_off_diagonal numeric_df method i j :
  i <> j ->
  corr_cell L numeric_df method i j =
  let rows := surviving_rows (values (iloc numeric_df i)) (values (iloc numeric_df j)) in
  if (1 <? length rows)%nat then
    let corr := coefficient L method (to_array (map fst rows)) (to_array (map snd rows)) in
    if isnan corr then Some 0 else corr
  else Some 0.
Proof.
  intros Hij. unfold corr_cell.
  apply Nat.eqb_neq in Hij. rewrite Hij.
  rewrite select_mask_l, select_mask_r. cbv zeta.
  unfold to_array at 1. rewrite !length_map.
  destruct (1 <? _)%nat; [|reflexivity].
  now destruct (isnan _).
Qed.

Lemma surviving_rows_swap a b :
  map fst (surviving_rows b a) = map snd (surviving_rows a b) /\
  map snd (surviving_rows b a) = map fst (surviving_rows a b).
Proof.
  rewrite <- !select_mask_l, <- !select_mask_r.
  now rewrite (valid_mask_comm b a).
Qed.

Lemma surviving_rows_length a b :
  length (surviving_rows b a) = length (surviving_rows a b).
Proof.
  rewrite <- (length_map fst (surviving_rows b a)).
  rewrite (proj1 (surviving_rows_swap a b)). apply length_map.
Qed.

(** Reading a cell of the array the loops build. *)
Lemma entry_build (f : nat -> nat -> num) n i j :
  (i < n)%nat -> (j < n)%nat ->
  entry (map (fun i => map (fun j => f i j) (seq 0 n)) (seq 0 n)) i j = f i j.
Proof.
  intros Hi Hj. unfold entry.
  rewrite (nth_indep _ [] (map (fun j => f 0%nat j) (seq 0 n)))
    by now rewrite length_map, length_seq.
  change (map (fun j0 => f 0%nat j0) (seq 0 n))
    with ((fun i0 => map (fun j0 => f i0 j0) (seq 0 n)) 0%nat).
  rewrite map_nth, seq_nth by assumption. cbn [Nat.add].
  rewrite (nth_indep _ nan (f i 0%nat)) by now rewrite length_map, length_seq.
  change (f i 0%nat) with ((fun j0 => f i j0) 0%nat).
  rewrite map_nth, seq_nth by assumption. reflexivity.
Qed.

Lemma create_correlation_matrix_cells df method m :
  create_correlation_matrix L df method = Return (Some m) ->
  forall i j,
    (i < length (select_dtypes is_number df))%nat ->
    (j < length (select_dtypes is_number df))%nat ->
    entry m i j = corr_cell L (select_dtypes is_number df) method i j.
Proof.
  unfold create_correlation_matrix.
  destruct (length (select_dtypes is_number df) <? 2)%nat; [discriminate|].
  intros H i j Hi Hj. injection H as <-.
  now apply entry_build.
Qed.

(** With library coefficients that do not depend on the order of their two
    arguments (as the exact Pearson and Spearman coefficients), the matrix
    is symmetric, for every table and every method. *)
Theorem correlation_matrix_symmetric (df : DataFrame) (method : string) (m : matrix) :
  (forall a b, np_corrcoef L a b = np_corrcoef L b a) ->
  (forall a b, fst (sp_spearmanr L a b) = fst (sp_spearmanr L b a)) ->
  create_correlation_matrix L df method = Return (Some m) ->
  forall i j,
    (i < length (select_dtypes is_number df))%nat ->
    (j < length (select_dtypes is_number df))%nat ->
    entry m i j = entry m j i.
Proof.
  intros Hp Hs Hm i j Hi Hj.
  rewrite !(create_correlation_matrix_cells _ _ Hm) by assumption.
  destruct (Nat.eq_dec i j) as [->|Hij]; [reflexivity|].
  rewrite !corr_cell_off_diagonal by auto. cbv zeta.
  set (a := values (iloc (select_dtypes is_number df) i)).
  set (b := values (iloc (select_dtypes is_number df) j)).
  rewrite (surviving_rows_length a b).
  destruct (surviving_rows_swap a b) as [-> ->].
  assert (Hc : forall x y, coefficient L method x y = coefficient L method y x).
  { intros x y. unfold coefficient. destruct (method =? "spearman")%string; auto. }
  now rewrite (Hc (to_array (map snd (surviving_rows a b)))).
Qed.

(** C1, as the code has it.  The two cells of a pair of columns are
    computed from the same surviving rows: cell (i, j) stores the library
    coefficient of the two value arrays, cell (j, i) the coefficient of the
    same two arrays in the other order (NaN replaced by 0.0, and 0.0 in
    both with fewer than two rows).  So the two cells are equal whenever
    the library returns the same for both orders, and only then can they
    differ. *)
Theorem correlation_cells_mirror (df : DataFrame) (method : string) (m : matrix)
    (i j : nat) :
  create_correlation_matrix L df method = Return (Some m) ->
  (i < length (select_dtypes is_number df))%nat ->
  (j < length (select_dtypes is_number df))%nat ->
  i <> j ->
  let numeric_df := select_dtypes is_number df in
  let rows := surviving_rows (values (iloc numeric_df i)) (values (iloc numeric_df j)) in
  let a := to_array (map fst rows) in
  let b := to_array (map snd rows) in
  let stored := fun corr : num => if isnan corr then Some 0 else corr in
  entry m i j = (if (1 <? length rows)%nat then stored (coefficient L method a b)
                 else Some 0) /\
  entry m j i = (if (1 <? length rows)%nat then stored (coefficient L method b a)
                 else Some 0) /\
  (coefficient L method a b = coefficient L method b a -> entry m i j = entry m j i).
Proof.
  intros Hm Hi Hj Hij numeric_df rows a b stored.
  assert (Eij : entry m i j = (if (1 <? length rows)%nat
                               then stored (coefficient L method a b) else Some 0)).
  { rewrite (create_correlation_matrix_cells _ _ Hm) by assumption.
    rewrite corr_cell_off_diagonal by assumption. reflexivity. }
  assert (Eji : entry m j i = (if (1 <? length rows)%nat
                               then stored (coefficient L method b a) else Some 0)).
  { rewrite (create_correlation_matrix_cells _ _ Hm) by assumption.
    rewrite corr_cell_off_diagonal by auto. cbv zeta.
    fold numeric_df.
    rewrite (surviving_rows_length (values (iloc numeric_df i))
                                   (values (iloc numeric_df j))).
    destruct (surviving_rows_swap (values (iloc numeric_df i))
                                  (values (iloc numeric_df j))) as [-> ->].
    reflexivity. }
  split; [exact Eij|]. split; [exact Eji|].
  intros E. rewrite Eij, Eji, E. reflexivity.
Qed.

(** C5.  Off the diagonal: with fewer than two surviving rows the cell is
    0.0; when the coefficient of the surviving rows is NaN the cell is 0.0;
    the cell is never NaN. *)
Theorem correlation_degenerate_cells (df : DataFrame) (method : string) (m : matrix)
    (i j : nat) :
  create_correlation_matrix L df method = Return (Some m) ->
  (i < length (select_dtypes is_number df))%nat ->
  (j < length (select_dtypes is_number df))%nat ->
  i <> j ->
  let numeric_df := select_dtypes is_number df in
  let rows := surviving_rows (values (iloc numeric_df i)) (values (iloc numeric_df j)) in
  ((length rows < 2)%nat -> entry m i j = Some 0) /\
  ((2 <= length rows)%nat ->
   isnan (coefficient L method (to_array (map fst rows)) (to_array (map snd rows))) = true ->
   entry m i j = Some 0) /\
  isnan (entry m i j) = false.
Proof.
  intros Hm Hi Hj Hij numeric_df rows.
  rewrite (create_correlation_matrix_cells _ _ Hm) by assumption.
  rewrite corr_cell_off_diagonal by assumption. cbv zeta. fold numeric_df. fold rows.
  destruct (1 <? length rows)%nat eqn:Hlen.
  - apply Nat.ltb_lt in Hlen. split; [lia|]. split.
    + intros _ Hnan. now rewrite Hnan.
    + destruct (isnan (coefficient _ _ _ _)) eqn:Hnan; [reflexivity | exact Hnan].
  - apply Nat.ltb_ge in Hlen. split; [reflexivity|]. split; [lia | reflexivity].
Qed.

(** C2 as amended: with fewer than two number columns the call returns
    [None]; it does not raise. *)
Theorem create_correlation_matrix_too_few (df : DataFrame) (method : string) :
  (length (select_dtypes is_number df) < 2)%nat ->
  create_correlation_matrix L df method = Return None.
Proof.
  intros H. unfold create_correlation_matrix.
  apply Nat.ltb_lt in H. now rewrite H.
Qed.

(** The call never raises. *)
Lemma create_correlation_matrix_returns df method :
  exists v, create_correlation_matrix L df method = Return v.
Proof.
  unfold create_correlation_matrix.
  destruct (_ <? _)%nat; eexists; reflexivity.
Qed.

(** C9.  On a column whose values are all missing, every field of the
    statistics record is NaN. *)
Theorem compute_numeric_stats_all_null (s : series) :
  forallb isna (values s) = true ->
  compute_numeric_stats L s = NumericStats nan nan nan nan nan nan nan nan.
Proof.
  intros H. unfold compute_numeric_stats.
  assert (Hd : dropna (values s) = []).
  { unfold dropna. induction (values s) as [|c t IH]; [reflexivity|].
    cbn in H |- *. apply andb_prop in H. destruct H as [Hc Ht].
    unfold notna. rewrite Hc. cbn. auto. }
  rewrite Hd. reflexivity.
Qed.

End CorrelationFacts.

Section CorrelationSamples.

Import Samples.

Lemma mul_comm x y : mul x y = mul y x.
Proof.
  destruct x as [a|], y as [b|]; unfold mul, lift2; trivial.
  f_equal. apply Qred_complete. ring.
Qed.

Lemma dot_comm a b : dot a b = dot b a.
Proof.
  unfold dot. f_equal. revert b.
  induction a as [|x a IH]; intros [|y b]; cbn; trivial.
  now rewrite IH, mul_comm.
Qed.

Lemma correlation_matrix_symmetric_witness :
  (forall a b, np_corrcoef toy_library a b = np_corrcoef toy_library b a) /\
  (forall a b, fst (sp_spearmanr toy_library a b) = fst (sp_spearmanr toy_library b a)) /\
  create_correlation_matrix toy_library flowers "pearson"
  = Return (Some [[Some 1; Some (382 # 25)]; [Some (382 # 25); Some 1]]) /\
  entry [[Some 1; Some (382 # 25)]; [Some (382 # 25); Some 1]] 0 1
  = entry [[Some 1; Some (382 # 25)]; [Some (382 # 25); Some 1]] 1 0.
Proof.
  assert (H1 : forall a b, np_corrcoef toy_library a b = np_corrcoef toy_library b a)
    by exact dot_comm.
  assert (H2 : forall a b, fst (sp_spearmanr toy_library a b)
                           = fst (sp_spearmanr toy_library b a))
    by exact dot_comm.
  assert (H3 : create_correlation_matrix toy_library flowers "pearson"
               = Return (Some [[Some 1; Some (382 # 25)]; [Some (382 # 25); Some 1]]))
    by (vm_compute; reflexivity).
  split; [exact H1|]. split; [exact H2|]. split; [exact H3|].
  apply (correlation_matrix_symmetric toy_library flowers "pearson" H1 H2 H3);
    cbn; lia.
Defined.

Lemma correlation_cells_mirror_witness :
  create_correlation_matrix toy_library flowers "pearson"
  = Return (Some [[Some 1; Some (382 # 25)]; [Some (382 # 25); Some 1]]) /\
  (0 < length (select_dtypes is_number flowers))%nat /\
  (1 < length (select_dtypes is_number flowers))%nat /\
  0%nat <> 1%nat /\
  entry [[Some 1; Some (382 # 25)]; [Some (382 # 25); Some 1]] 1 0 = Some (382 # 25).
Proof.
  assert (H : create_correlation_matrix toy_library flowers "pearson"
              = Return (Some [[Some 1; Some (382 # 25)]; [Some (382 # 25); Some 1]]))
    by (vm_compute; reflexivity).
  assert (H0 : (0 < length (select_dtypes is_number flowers))%nat) by (cbn; lia).
  assert (H1 : (1 < length (select_dtypes is_number flowers))%nat) by (cbn; lia).
  assert (Hne : 0%nat <> 1%nat) by discriminate.
  split; [exact H|]. split; [exact H0|]. split; [exact H1|]. split; [exact Hne|].
  rewrite (proj1 (proj2 (correlation_cells_mirror toy_library flowers "pearson"
                           H H0 H1 Hne))).
  vm_compute. reflexivity.
Defined.

(** C1 as the specification has it fails with numpy's binary64 Pearson
    coefficient: on the columns 1, 2, 3, 4 and 1, 4, 9, 100 the cell (0, 1)
    is 0.81597783530686341 (7349674950061148 / 2^53, in lowest terms
    below) and the cell (1, 0) is 0.81597783530686352
    (7349674950061149 / 2^53), one unit in the last place apart. *)
Lemma correlation_symmetry_counterexample :
  create_correlation_matrix Binary64.numpy Binary64Samples.squares "pearson"
  = Return (Some [[Some 1; Some (1837418737515287 # 2251799813685248)];
                  [Some (7349674950061149 # 9007199254740992); Some 1]]) /\
  Binary64.corrcoef (map Binary64.of_Z [1; 2; 3; 4]%Z) (map Binary64.of_Z [1; 4; 9; 100]%Z)
  <> Binary64.corrcoef (map Binary64.of_Z [1; 4; 9; 100]%Z) (map Binary64.of_Z [1; 2; 3; 4]%Z) /\
  forall m, create_correlation_matrix Binary64.numpy Binary64Samples.squares "pearson"
            = Return (Some m) -> entry m 0 1 <> entry m 1 0.
Proof.
  assert (H : create_correlation_matrix Binary64.numpy Binary64Samples.squares "pearson"
              = Return (Some [[Some 1; Some (1837418737515287 # 2251799813685248)];
                              [Some (7349674950061149 # 9007199254740992); Some 1]]))
    by (vm_compute; reflexivity).
  split; [|split].
  - rewrite H. reflexivity.
  - intros E.
    assert (F : PrimFloat.eqb
                  (Binary64.corrcoef (map Binary64.of_Z [1; 2; 3; 4]%Z)
                                     (map Binary64.of_Z [1; 4; 9; 100]%Z))
                  (Binary64.corrcoef (map Binary64.of_Z [1; 4; 9; 100]%Z)
                                     (map Binary64.of_Z [1; 2; 3; 4]%Z)) = false)
      by (vm_compute; reflexivity).
    rewrite E in F. vm_compute in F. discriminate F.
  - intros m Hm. rewrite H in Hm. injection Hm as <-. vm_compute. discriminate.
Qed.

Lemma correlation_degenerate_cells_witness :
  create_correlation_matrix nan_library flowers "spearman"
  = Return (Some [[Some 1; Some 0]; [Some 0; Some 1]]) /\
  (0 < length (select_dtypes is_number flowers))%nat /\
  (1 < length (select_dtypes is_number flowers))%nat /\
  0%nat <> 1%nat /\
  isnan (entry [[Some 1; Some 0]; [Some 0; Some 1]] 0 1) = false.
Proof.
  assert (H : create_correlation_matrix nan_library flowers "spearman"
              = Return (Some [[Some 1; Some 0]; [Some 0; Some 1]]))
    by (vm_compute; reflexivity).
  assert (H0 : (0 < length (select_dtypes is_number flowers))%nat) by (cbn; lia).
  assert (H1 : (1 < length (select_dtypes is_number flowers))%nat) by (cbn; lia).
  assert (Hne : 0%nat <> 1%nat) by discriminate.
  split; [exact H|]. split; [exact H0|]. split; [exact H1|]. split; [exact Hne|].
  apply (correlation_degenerate_cells nan_library flowers "spearman" H H0 H1 Hne).
Defined.

(** C2 as the specification has it fails: one number column gives the
    value [None], not an exception. *)
Lemma insufficient_data_counterexample :
  (length (select_dtypes is_number single) < 2)%nat /\
  create_correlation_matrix toy_library single "pearson" = Return None /\
  create_correlation_matrix toy_library single "pearson"
  <> Raise "InsufficientDataError".
Proof.
  split; [cbn; lia|]. split; [reflexivity | discriminate].
Qed.

Lemma create_correlation_matrix_too_few_witness :
  (length (select_dtypes is_number single) < 2)%nat /\
  create_correlation_matrix toy_library single "spearman" = Return None.
Proof.
  assert (H : (length (select_dtypes is_number single) < 2)%nat) by (cbn; lia).
  split; [exact H|].
  apply (create_correlation_matrix_too_few toy_library single "spearman" H).
Defined.

Lemma compute_numeric_stats_all_null_witness :
  forallb isna (values all_null) = true /\
  st_mean (compute_numeric_stats toy_library all_null) = nan.
Proof.
  assert (H : forallb isna (values all_null) = true) by reflexivity.
  split; [exact H|].
  now rewrite (compute_numeric_stats_all_null toy_library all_null H).
Defined.

End CorrelationSamples.

(** ** Selector options and default selections *)

Section DashboardFacts.

Import Classifier Dashboard.

Lemma first_or_none_options cols : first_or_none (options_for cols) = hd_error cols.
Proof. now destruct cols. Qed.

(** The two applications run the same callback. *)
Lemma eda_update_plot_options_eq df plot_type :
  eda_update_plot_options df plot_type = update_column_options df plot_type.
Proof. reflexivity. Qed.

Lemma callback_eligible app df plot_type :
  let '(xs, ys, sizes, colors) := eligible df plot_type in
  callback app df plot_type =
  Outputs (options_for xs) (options_for ys) (options_for colors) (options_for sizes)
          (hd_error xs) (hd_error ys) None None.
Proof.
  unfold eligible.
  assert (H : callback app df plot_type = update_column_options df plot_type)
    by now destruct app.
  rewrite H. unfold update_column_options.
  destruct (infer_column_types df default_cat_threshold) as [numeric categorical].
  cbn [fst snd].
  destruct (plot_type =? "scatter");
    [|destruct ((plot_type =? "box") || (plot_type =? "violin"));
      [|destruct (plot_type =? "bar"); [|destruct (plot_type =? "hist")]]];
    now rewrite <- !first_or_none_options.
Qed.

(** C7.  Whenever the table or the plot type changes, in both
    applications and whatever the dropdowns held before: the x and y
    dropdowns are filled with the columns eligible for the plot type (the
    table [eligible]: numeric columns for a scatter plot, categorical x
    and numeric y for box, violin and bar, numeric then categorical x and
    no y for a histogram), x and y are set to the first of these columns,
    or to none when there is none, and color and size are unset. *)
Theorem selections_reset (app : application) (before : outputs)
    (df : DataFrame) (plot_type : string) :
  let after := fire app before df plot_type in
  let '(xs, ys, sizes, colors) := eligible df plot_type in
  x_options after = options_for xs /\
  y_options after = options_for ys /\
  x_value after = hd_error xs /\
  y_value after = hd_error ys /\
  x_value after = first_or_none (x_options after) /\
  y_value after = first_or_none (y_options after) /\
  x_value after = hd_error (map value (x_options after)) /\
  y_value after = hd_error (map value (y_options after)) /\
  color_value after = None /\
  size_value after = None /\
  (forall before', fire app before' df plot_type = after).
Proof.
  cbv zeta. unfold fire.
  pose proof (callback_eligible app df plot_type) as H.
  destruct (eligible df plot_type) as [[[xs ys] sizes] colors].
  rewrite H. cbn [x_value y_value x_options y_options color_value size_value].
  rewrite !first_or_none_options.
  repeat split; trivial.
  - now destruct xs.
  - now destruct ys.
Qed.

(** Switching the flowers from a scatter plot to a box plot: x moves from
    the first numeric column to the first categorical one. *)
Example selections_reset_flowers :
  x_value (fire DashPlotter (callback DashPlotter Samples.flowers "scatter")
             Samples.flowers "scatter") = Some "petal_len" /\
  x_value (fire DashPlotter (callback DashPlotter Samples.flowers "scatter")
             Samples.flowers "box") = Some "species" /\
  y_value (fire EdaDashboard (callback EdaDashboard Samples.flowers "scatter")
             Samples.flowers "hist") = None.
Proof. repeat split; reflexivity. Qed.

End DashboardFacts.

(** ** The dropdowns of the stand-alone plotter *)

Section PlotterFacts.

Import Classifier Dashboard Plotter Samples.

Variable L : library.

Lemma make_buttons_labels df attr_path transform method relayout_fn extra_payload :
  map Plotter.label
      (make_buttons_for_attr df attr_path transform method relayout_fn extra_payload)
  = columns df.
Proof.
  unfold make_buttons_for_attr. rewrite map_map. cbn [Plotter.label]. apply map_id.
Qed.

(** C8 as amended.  For a scatter plot the selectors of both applications
    offer the number columns for x, y and size and every column for color;
    each dropdown of the stand-alone builder (x, y, color, size) has one
    button per column of the table, in table order. *)
Theorem scatter_eligibility (df : DataFrame) :
  let numeric := fst (infer_column_types df default_cat_threshold) in
  (forall app,
      x_options (callback app df "scatter") = options_for numeric /\
      y_options (callback app df "scatter") = options_for numeric /\
      size_options (callback app df "scatter") = options_for numeric /\
      color_options (callback app df "scatter") = options_for (columns df)) /\
  map Plotter.label (x_buttons L df) = columns df /\
  map Plotter.label (y_buttons L df) = columns df /\
  map Plotter.label (size_buttons df) = columns df /\
  map Plotter.label (color_buttons df) = columns df.
Proof.
  cbv zeta. split.
  - intros app. pose proof (callback_eligible app df "scatter") as H.
    unfold eligible in H. cbn [String.eqb Ascii.eqb Bool.eqb] in H.
    change ("scatter" =? "scatter") with true in H. cbv iota in H.
    rewrite H. cbn. auto.
  - unfold x_buttons, y_buttons, size_buttons, color_buttons.
    now rewrite !make_buttons_labels.
Qed.

End PlotterFacts.

(** ** The size transform *)

Section SizeFacts.

Import Plotter.









Lemma Qeq_bool_false x y : ~ x == y -> Qeq_bool x y = false.
Proof.
  intros H. destruct (Qeq_bool x y) eqn:E; [|reflexivity].
  apply Qeq_bool_eq in E. contradiction.
Qed.

(** The branch taken by a numeric column with a spread. *)
Lemma size_transform_spread s mn mx :
  is_numeric_series s = true ->
  series_min (to_array (values s)) = Some mn ->
  series_max (to_array (values s)) = Some mx ->
  ~ mx == mn ->
  size_transform s =
  map (fun v => add (Some 5) (mul (div (sub v (Some mn)) (Some (Qred (mx - mn)))) (Some 20)))
      (to_array (values s)).
Proof.
  intros Hn Hmn Hmx Hne. unfold size_transform.
  rewrite Hn, Hmn, Hmx. cbn [negb]. unfold sub at 1, lift2, eqb, isnan.
  rewrite Qeq_bool_false; [reflexivity|].
  rewrite Qred_correct. intros H. apply Hne. lra.
Qed.

(** The branch taken by a numeric column without a spread. *)
Lemma size_transform_flat s :
  is_numeric_series s = true ->
  (forall mn mx, series_min (to_array (values s)) = Some mn ->
                 series_max (to_array (values s)) = Some mx -> mx == mn) ->
  size_transform s = repeat (Some 10) (length (values s)).
Proof.
  intros Hn Hflat. unfold size_transform. rewrite Hn. cbn [negb].
  replace (length (to_array (values s))) with (length (values s))
    by (unfold to_array; now rewrite length_map).
  destruct (series_min (to_array (values s))) as [mn|] eqn:Hmn;
    destruct (series_max (to_array (values s))) as [mx|] eqn:Hmx;
    try reflexivity.
  unfold sub, lift2, eqb, isnan.
  assert (E : Qeq_bool (Qred (mx - mn)) 0 = true).
  { apply Qeq_eq_bool. rewrite Qred_correct.
    specialize (Hflat mn mx eq_refl eq_refl). lra. }
  now rewrite E.
Qed.

Lemma scaled_value v mn mx :
  ~ mx == mn ->
  add (Some 5) (mul (div (sub (Some v) (Some mn)) (Some (Qred (mx - mn)))) (Some 20))
  = Some (Qred (5 + Qred (Qred (Qred (v - mn) / Qred (mx - mn)) * 20))).
Proof.
  intros Hne. unfold add, mul, div, sub, lift2.
  rewrite Qeq_bool_false; [reflexivity|].
  rewrite Qred_correct. intros H. apply Hne. lra.
Qed.

(** In exact arithmetic the rescaling of the code,
    [5 + ((v - min) / rng) * 20], is the one the specification writes,
    [5 + 20 * (v - min) / (max - min)]. *)
Lemma size_transform_cases (s : series) :
  let arr := to_array (values s) in
  (is_numeric_series s = false ->
   size_transform s = repeat (Some 10) (length (values s))) /\
  (is_numeric_series s = true ->
   forall mn mx, series_min arr = Some mn -> series_max arr = Some mx ->
                 ~ mx == mn ->
                 size_transform s = map (scaled_by_spec mn mx) arr) /\
  (is_numeric_series s = true ->
   (forall mn mx, series_min arr = Some mn -> series_max arr = Some mx -> mx == mn) ->
   size_transform s = repeat (Some 10) (length (values s))).
Proof.
  cbv zeta. split; [|split].
  - intros Hn. unfold size_transform. now rewrite Hn.
  - intros Hn mn mx Hmn Hmx Hne.
    rewrite (size_transform_spread s Hn Hmn Hmx Hne).
    apply map_ext. intros [v|]; [|reflexivity].
    rewrite scaled_value by assumption. unfold scaled_by_spec. f_equal.
    apply Qred_complete. rewrite !Qred_correct. field.
    intros H. apply Hne. lra.
  - apply size_transform_flat.
Qed.



End SizeFacts.

Section SizeSamples.

Import Plotter Samples.

Example size_transform_widths :
  size_transform widths = [Some 5; nan; Some 25; Some (275 # 23)].
Proof. reflexivity. Qed.

Example size_transform_all_null :
  size_transform all_null = [Some 10; Some 10; Some 10].
Proof. reflexivity. Qed.

Lemma size_transform_cases_witness :
  size_transform species = repeat (Some 10) 3 /\
  size_transform widths
  = map (scaled_by_spec (2 # 10) (25 # 10)) (to_array (values widths)) /\
  size_transform flat = repeat (Some 10) 3 /\
  size_transform all_null = repeat (Some 10) 3.
Proof.
  split; [|split; [|split]].
  - apply (proj1 (size_transform_cases species)). reflexivity.
  - apply (proj1 (proj2 (size_transform_cases widths)));
      [reflexivity | reflexivity | reflexivity | discriminate].
  - apply (proj2 (proj2 (size_transform_cases flat))); [reflexivity|].
    intros mn mx Hmn Hmx. injection Hmn as <-. injection Hmx as <-. reflexivity.
  - apply (proj2 (proj2 (size_transform_cases all_null))); [reflexivity|].
    intros mn mx Hmn. discriminate Hmn.
Defined.



End SizeSamples.

(** ** The size transform on binary64 *)

Section Binary64Facts.

Import Plotter.





End Binary64Facts.

Section Binary64Runs.

Import Plotter Samples Binary64Samples.

Example size_transform_quarters :
  Binary64.size_transform quarters
  = [Binary64.five; PrimFloat.nan; Binary64.of_Z 25;
     PrimFloat.div (Binary64.of_Z 6567749456581973) (Binary64.of_Z 562949953421312)]
  /\ size_transform quarters = [Some 5; nan; Some 25; Some (35 # 3)].
Proof. split; vm_compute; reflexivity. Qed.



End Binary64Runs.

Section PlotterSamples.

Import Classifier Dashboard Plotter Samples.

(** C8 as the specification has it fails for the builder: its x dropdown
    lists the text column too. *)
Lemma builder_alternatives_counterexample :
  fst (infer_column_types flowers default_cat_threshold) = ["petal_len"; "petal_wid"] /\
  map Plotter.label (x_buttons toy_library flowers)
  = ["species"; "petal_len"; "petal_wid"] /\
  map Plotter.label (size_buttons flowers)
  = ["species"; "petal_len"; "petal_wid"] /\
  map Plotter.label (x_buttons toy_library flowers)
  <> fst (infer_column_types flowers default_cat_threshold).
Proof.
  split; [reflexivity|]. split; [reflexivity|]. split; [reflexivity|].
  vm_compute. discriminate.
Qed.

End PlotterSamples.

(** * Further properties *)

(** ** Classification on any table, thresholds, histogram options *)

Section ClassifierMore.

Import Classifier Dashboard.

Ltac labels_distinct := repeat constructor; cbn; intuition discriminate.

Lemma Subseq_refl l : Subseq l l.
Proof. induction l; constructor; assumption. Qed.

Lemma Subseq_app_l a b b' : Subseq b b' -> Subseq (a ++ b) (a ++ b').
Proof. intros H. induction a; cbn; [assumption | now constructor]. Qed.

Lemma filter_Subseq_mono (p r : string -> bool) l :
  (forall x, p x = true -> r x = true) -> Subseq (filter p l) (filter r l).
Proof.
  intros H. induction l as [|x t IH]; cbn; [constructor|].
  destruct (p x) eqn:Hp.
  - rewrite (H x Hp). now constructor.
  - destruct (r x); [now constructor | assumption].
Qed.

Lemma low_cardinality_mono df thr thr' col :
  (thr <= thr')%Z -> low_cardinality df thr col = true -> low_cardinality df thr' col = true.
Proof.
  unfold low_cardinality. intros Hle.
  destruct (getitem df col) as [|s [|? ?]]; trivial.
  rewrite !Z.leb_le. lia.
Qed.

Lemma categorical_In df thr c :
  NoDup (columns df) -> In c df ->
  (In (name c) (snd (infer_column_types df thr)) <->
   is_object_category_bool (dtype_of c) = true \/
   (is_number (dtype_of c) = true /\ (Z.of_nat (nunique c) <= thr)%Z)).
Proof.
  intros Hnd Hc. rewrite infer_column_types_eq. cbn [snd].
  rewrite dedupe_In, in_app_iff, filter_In.
  rewrite !(in_columns_select _ df c Hnd Hc).
  rewrite (low_cardinality_column df thr c Hnd Hc), Z.leb_le. tauto.
Qed.

Lemma declared_numeric_disjoint df x :
  NoDup (columns df) ->
  In x (columns (select_dtypes is_object_category_bool df)) ->
  In x (columns (select_dtypes is_number df)) -> False.
Proof.
  intros Hnd Hx Hx'. unfold columns, select_dtypes in Hx, Hx'.
  apply in_map_iff in Hx. destruct Hx as [a [Ha Hina]].
  apply in_map_iff in Hx'. destruct Hx' as [b [Hb Hinb]].
  apply filter_In in Hina. apply filter_In in Hinb.
  destruct Hina as [Hina Hda], Hinb as [Hinb Hdb].
  assert (a = b) by (apply (name_inj df); trivial; congruence).
  subst b. destruct (dtype_of a); discriminate.
Qed.

Lemma NoDup_app_disjoint (l l' : list string) x :
  NoDup (l ++ l') -> In x l -> In x l' -> False.
Proof.
  induction l as [|y t IH]; cbn; intros Hnd Hx Hx'; [contradiction|].
  inversion Hnd as [|? ? Hy Ht]; subst.
  destruct Hx as [->|Hx]; [|now apply IH].
  apply Hy. apply in_app_iff. now right.
Qed.

Lemma categorical_eq df thr :
  NoDup (columns df) ->
  snd (infer_column_types df thr)
  = columns (select_dtypes is_object_category_bool df)
    ++ filter (low_cardinality df thr) (columns (select_dtypes is_number df)).
Proof.
  intros Hnd. rewrite infer_column_types_eq. cbn [snd].
  pose proof (select_Subseq is_number df) as Hn.
  pose proof (select_Subseq is_object_category_bool df) as Ho.
  apply dedupe_id. apply NoDup_app.
  - eapply Subseq_NoDup; eassumption.
  - eapply Subseq_NoDup; [apply filter_Subseq|]. eapply Subseq_NoDup; eassumption.
  - intros x Hx Hx'. apply filter_In in Hx'.
    apply (declared_numeric_disjoint df x); tauto.
Qed.

(** X1.  On every table, repeated labels included: both lists hold only
    labels of the table and the categorical list has no repeated entry. *)
Theorem infer_column_types_labels (df : DataFrame) (cat_threshold : Z) :
  incl (fst (infer_column_types df cat_threshold)) (columns df) /\
  incl (snd (infer_column_types df cat_threshold)) (columns df) /\
  NoDup (snd (infer_column_types df cat_threshold)).
Proof.
  rewrite infer_column_types_eq. cbn [fst snd].
  pose proof (select_Subseq is_number df) as Hn.
  pose proof (select_Subseq is_object_category_bool df) as Ho.
  split; [|split].
  - intros x. apply Subseq_In. assumption.
  - intros x Hx. rewrite dedupe_In, in_app_iff in Hx.
    destruct Hx as [Hx|Hx].
    + eapply Subseq_In; eassumption.
    + apply filter_In in Hx. eapply Subseq_In; [exact Hn | tauto].
  - apply dedupe_NoDup.
Qed.

(** X2.  Raising the threshold only adds to the categorical list, keeping
    the order of what was there, and leaves the numeric list alone. *)
Theorem infer_column_types_threshold (df : DataFrame) (low high : Z) :
  NoDup (columns df) -> (low <= high)%Z ->
  fst (infer_column_types df low) = fst (infer_column_types df high) /\
  Subseq (snd (infer_column_types df low)) (snd (infer_column_types df high)).
Proof.
  intros Hnd Hle. split.
  - now rewrite !infer_column_types_eq.
  - rewrite !categorical_eq by assumption.
    apply Subseq_app_l. apply filter_Subseq_mono.
    intros x. now apply low_cardinality_mono.
Qed.

Lemma infer_column_types_threshold_witness :
  NoDup (columns Samples.orders) /\ (2 <= 20)%Z /\
  Subseq (snd (infer_column_types Samples.orders 2))
         (snd (infer_column_types Samples.orders 20)).
Proof.
  assert (Hnd : NoDup (columns Samples.orders)) by labels_distinct.
  assert (Hle : (2 <= 20)%Z) by lia.
  split; [exact Hnd|]. split; [exact Hle|].
  apply (infer_column_types_threshold Samples.orders Hnd Hle).
Defined.

Lemma nunique_all_null c : forallb isna (values c) = true -> nunique c = O.
Proof.
  intros H. unfold nunique.
  assert (Hd : dropna (values c) = []).
  { unfold dropna. induction (values c) as [|v t IH]; [reflexivity|].
    cbn in H |- *. apply andb_prop in H. destruct H as [Hv Ht].
    unfold notna. rewrite Hv. cbn. auto. }
  now rewrite Hd.
Qed.

(** X3.  A number column whose entries are all missing has no distinct
    value: it is in the numeric list, and in the categorical list exactly
    when the threshold is not negative. *)
Theorem all_null_number_column (df : DataFrame) (cat_threshold : Z) (c : series) :
  NoDup (columns df) -> In c df ->
  is_number (dtype_of c) = true -> forallb isna (values c) = true ->
  In (name c) (fst (infer_column_types df cat_threshold)) /\
  (In (name c) (snd (infer_column_types df cat_threshold)) <-> (0 <= cat_threshold)%Z).
Proof.
  intros Hnd Hc Hn Hnull. split.
  - rewrite infer_column_types_eq. cbn [fst]. now apply in_columns_select.
  - rewrite (categorical_In df cat_threshold c Hnd Hc).
    rewrite (nunique_all_null c Hnull). cbn [Z.of_nat].
    split; [|tauto].
    intros [Ho|[_ H]]; [|assumption].
    destruct (dtype_of c); discriminate.
Qed.

Lemma all_null_number_column_witness :
  NoDup (columns [Samples.all_null; Samples.species]) /\
  In Samples.all_null [Samples.all_null; Samples.species] /\
  is_number (dtype_of Samples.all_null) = true /\
  forallb isna (values Samples.all_null) = true /\
  In "x" (snd (infer_column_types [Samples.all_null; Samples.species] 0)).
Proof.
  assert (Hnd : NoDup (columns [Samples.all_null; Samples.species])) by labels_distinct.
  assert (Hin : In Samples.all_null [Samples.all_null; Samples.species]) by (cbn; tauto).
  split; [exact Hnd|]. split; [exact Hin|]. split; [reflexivity|]. split; [reflexivity|].
  apply (all_null_number_column [Samples.all_null; Samples.species] 0 Samples.all_null
           Hnd Hin eq_refl eq_refl).
  lia.
Defined.

(** X4.  For a histogram the x dropdown lists the numeric columns and then
    the categorical ones.  With distinct labels, its entries are distinct
    exactly when no number column has 20 or fewer distinct values; such a
    column is listed twice. *)
Theorem histogram_options_repeat (app : application) (df : DataFrame) :
  NoDup (columns df) ->
  (NoDup (map value (x_options (callback app df "hist"))) <->
   forall c, In c df -> is_number (dtype_of c) = true ->
             (default_cat_threshold < Z.of_nat (nunique c))%Z).
Proof.
  intros Hnd.
  pose proof (callback_eligible app df "hist") as H.
  unfold eligible in H. change ("hist" =? "scatter") with false in H.
  change (("hist" =? "box") || ("hist" =? "violin")) with false in H.
  change ("hist" =? "bar") with false in H. change ("hist" =? "hist") with true in H.
  cbv iota in H. rewrite H. cbn [x_options].
  unfold options_for. rewrite map_map. cbn [value]. rewrite map_id.
  rewrite (categorical_eq df default_cat_threshold Hnd).
  rewrite infer_column_types_eq. cbn [fst].
  set (numeric := columns (select_dtypes is_number df)).
  set (declared := columns (select_dtypes is_object_category_bool df)).
  assert (Hnum : NoDup numeric)
    by (eapply Subseq_NoDup; [apply select_Subseq | assumption]).
  assert (Hdec : NoDup declared)
    by (eapply Subseq_NoDup; [apply select_Subseq | assumption]).
  split.
  - intros Hall c Hc Hn.
    destruct (Z.ltb_spec default_cat_threshold (Z.of_nat (nunique c))) as [|Hle];
      [assumption|].
    exfalso.
    assert (Hin : In (name c) numeric) by now apply in_columns_select.
    assert (Hlow : In (name c) (filter (low_cardinality df default_cat_threshold) numeric)).
    { apply filter_In. split; [assumption|].
      rewrite (low_cardinality_column df default_cat_threshold c Hnd Hc).
      now apply Z.leb_le. }
    apply (@NoDup_app_disjoint _ _ (name c) Hall Hin).
    apply in_app_iff. now right.
  - intros Hall.
    assert (Hnil : filter (low_cardinality df default_cat_threshold) numeric = []).
    { destruct (filter _ numeric) as [|x t] eqn:E; [reflexivity|].
      exfalso.
      assert (Hx : In x (filter (low_cardinality df default_cat_threshold) numeric))
        by (rewrite E; now left).
      apply filter_In in Hx. destruct Hx as [Hx Hlow].
      unfold numeric, columns, select_dtypes in Hx.
      apply in_map_iff in Hx. destruct Hx as [c [<- Hc]].
      apply filter_In in Hc. destruct Hc as [Hc Hn].
      rewrite (low_cardinality_column df default_cat_threshold c Hnd Hc) in Hlow.
      apply Z.leb_le in Hlow. specialize (Hall c Hc Hn). lia. }
    rewrite Hnil, app_nil_r. apply NoDup_app; trivial.
    intros x Hx Hx'. apply (declared_numeric_disjoint df x); assumption.
Qed.

Lemma histogram_options_repeat_witness :
  NoDup (columns Samples.orders) /\
  ~ NoDup (map value (x_options (callback DashPlotter Samples.orders "hist"))).
Proof.
  assert (Hnd : NoDup (columns Samples.orders)) by labels_distinct.
  split; [exact Hnd|].
  intros H.
  pose proof (proj1 (histogram_options_repeat DashPlotter Samples.orders Hnd) H
                (Series "size" Int64
                   [Samples.q 2; Samples.q 3; Samples.q 2; Samples.q 4])
                (or_introl eq_refl) eq_refl) as H'.
  vm_compute in H'. discriminate H'.
Defined.

End ClassifierMore.

(** ** More on the correlation matrix *)

Section CorrelationMore.

Variable L : library.

Lemma correlation_matrix_built df method :
  (2 <= length (select_dtypes is_number df))%nat ->
  exists m, create_correlation_matrix L df method = Return (Some m) /\
            length m = length (select_dtypes is_number df) /\
            (forall row, In row m -> length row = length (select_dtypes is_number df)).
Proof.
  intros Hn. unfold create_correlation_matrix.
  apply Nat.ltb_ge in Hn. rewrite Hn. eexists. split; [reflexivity|]. split.
  - now rewrite length_map, length_seq.
  - intros row Hrow. apply in_map_iff in Hrow. destruct Hrow as [i [<- _]].
    now rewrite length_map, length_seq.
Qed.

(** X5.  With at least two number columns the call returns a square array
    with one row and one column per number column, and every diagonal cell
    is exactly 1.0, whatever the data and the library coefficients. *)
Theorem correlation_matrix_shape (df : DataFrame) (method : string) :
  (2 <= length (select_dtypes is_number df))%nat ->
  exists m,
    create_correlation_matrix L df method = Return (Some m) /\
    length m = length (select_dtypes is_number df) /\
    (forall row, In row m -> length row = length (select_dtypes is_number df)) /\
    (forall i, (i < length (select_dtypes is_number df))%nat -> entry m i i = Some 1).
Proof.
  intros Hn.
  destruct (correlation_matrix_built df method Hn) as [m [Hm [Hlen Hrows]]].
  exists m. repeat split; trivial.
  intros i Hi. rewrite (create_correlation_matrix_cells L _ _ Hm) by assumption.
  unfold corr_cell. now rewrite Nat.eqb_refl.
Qed.

(** X6.  Only the text ["spearman"] selects Spearman: every other method
    string gives the Pearson matrix. *)
Theorem correlation_method_fallback (df : DataFrame) (method : string) :
  method <> "spearman" ->
  create_correlation_matrix L df method = create_correlation_matrix L df "pearson".
Proof.
  intros Hm. unfold create_correlation_matrix.
  destruct (_ <? 2)%nat; [reflexivity|]. do 2 f_equal.
  apply map_ext. intros i. apply map_ext. intros j.
  unfold corr_cell, coefficient.
  apply String.eqb_neq in Hm. rewrite Hm. reflexivity.
Qed.

(** X7.  Pairwise deletion: the cell of a pair of columns is computed from
    these two columns only.  Two tables whose number columns agree at
    positions [i] and [j] have the same cell there, whatever their other
    columns hold. *)
Theorem correlation_cell_local (df df' : DataFrame) (method : string)
    (m m' : matrix) (i j : nat) :
  create_correlation_matrix L df method = Return (Some m) ->
  create_correlation_matrix L df' method = Return (Some m') ->
  (i < length (select_dtypes is_number df))%nat ->
  (j < length (select_dtypes is_number df))%nat ->
  (i < length (select_dtypes is_number df'))%nat ->
  (j < length (select_dtypes is_number df'))%nat ->
  values (iloc (select_dtypes is_number df) i)
  = values (iloc (select_dtypes is_number df') i) ->
  values (iloc (select_dtypes is_number df) j)
  = values (iloc (select_dtypes is_number df') j) ->
  entry m i j = entry m' i j.
Proof.
  intros Hm Hm' Hi Hj Hi' Hj' Ei Ej.
  rewrite (create_correlation_matrix_cells L _ _ Hm) by assumption.
  rewrite (create_correlation_matrix_cells L _ _ Hm') by assumption.
  unfold corr_cell. now rewrite Ei, Ej.
Qed.

(** X8.  What is handed to the library for a pair of columns: two arrays
    of the same length, taken from the same rows, in which no entry is
    missing. *)
Theorem valid_data_clean (a b : list cell) :
  let mask := valid_mask a b in
  length (select mask a) = length (select mask b) /\
  Forall (fun c => notna c = true) (select mask a) /\
  Forall (fun c => notna c = true) (select mask b) /\
  combine (select mask a) (select mask b) = surviving_rows a b.
Proof.
  cbv zeta. rewrite select_mask_l, select_mask_r.
  assert (H : Forall (fun ab => notna (fst ab) && notna (snd ab) = true)
                     (surviving_rows a b)).
  { apply Forall_forall. intros ab Hab. unfold surviving_rows in Hab.
    now apply filter_In in Hab. }
  split; [now rewrite !length_map|].
  induction (surviving_rows a b) as [|[x y] t IH]; cbn; [repeat split; constructor|].
  inversion H as [|? ? Hxy Ht]; subst. cbn in Hxy.
  apply andb_prop in Hxy. destruct Hxy as [Hx Hy].
  destruct (IH Ht) as [Ha [Hb Hc]].
  repeat split; try (constructor; assumption). now rewrite Hc.
Qed.

End CorrelationMore.

Section CorrelationMoreSamples.

Import Samples MoreSamples.

Lemma correlation_matrix_shape_witness :
  (2 <= length (select_dtypes is_number flowers))%nat /\
  exists m, create_correlation_matrix nan_library flowers "pearson" = Return (Some m) /\
            entry m 1 1 = Some 1.
Proof.
  assert (H : (2 <= length (select_dtypes is_number flowers))%nat) by (cbn; lia).
  split; [exact H|].
  destruct (correlation_matrix_shape nan_library flowers "pearson" H)
    as [m [Hm [_ [_ Hd]]]].
  exists m. split; [exact Hm|]. apply Hd. cbn. lia.
Defined.

Lemma correlation_method_fallback_witness :
  "kendall" <> "spearman" /\
  create_correlation_matrix toy_library flowers "kendall"
  = create_correlation_matrix toy_library flowers "pearson".
Proof.
  assert (H : "kendall" <> "spearman") by discriminate.
  split; [exact H|].
  apply (correlation_method_fallback toy_library flowers H).
Defined.

Lemma correlation_cell_local_witness :
  entry [[Some 1; Some (382 # 25)]; [Some (382 # 25); Some 1]] 0 1
  = entry [[Some 1; Some (382 # 25); Some 0];
           [Some (382 # 25); Some 1; Some 0];
           [Some 0; Some 0; Some 1]] 0 1.
Proof.
  apply (correlation_cell_local toy_library flowers flowers_more "pearson");
    try reflexivity; cbn; lia.
Defined.

End CorrelationMoreSamples.

(** ** More on the size transform *)

Section SizeMore.

Import Plotter.











End SizeMore.

(** ** Visibility of the controls and the figure callbacks *)

Section FigureFacts.

Import Classifier Dashboard Upload Figures.

Lemma eligible_hist df :
  eligible df "hist"
  = (fst (infer_column_types df default_cat_threshold)
     ++ snd (infer_column_types df default_cat_threshold), [], [], columns df).
Proof. reflexivity. Qed.

Lemma eligible_bar df :
  eligible df "bar"
  = (snd (infer_column_types df default_cat_threshold),
     fst (infer_column_types df default_cat_threshold), [], columns df).
Proof. reflexivity. Qed.

Lemma eligible_box df :
  eligible df "box"
  = (snd (infer_column_types df default_cat_threshold),
     fst (infer_column_types df default_cat_threshold), [], columns df).
Proof. reflexivity. Qed.

Lemma eligible_violin df :
  eligible df "violin"
  = (snd (infer_column_types df default_cat_threshold),
     fst (infer_column_types df default_cat_threshold), [], columns df).
Proof. reflexivity. Qed.

Lemma callback_size_options app df plot_type :
  plot_type = "box" \/ plot_type = "violin" \/ plot_type = "bar" \/ plot_type = "hist" ->
  size_options (callback app df plot_type) = [].
Proof.
  intros H. pose proof (callback_eligible app df plot_type) as E.
  destruct H as [-> | [-> | [-> | ->]]];
    [rewrite eligible_box in E | rewrite eligible_violin in E
     | rewrite eligible_bar in E | rewrite eligible_hist in E];
    now rewrite E.
Qed.

(** X11.  The callbacks that hide controls agree with the ones that fill
    them: a hidden y dropdown has no options and no value, a hidden size
    dropdown has no options.  For a bar chart and a histogram the size
    dropdown stays visible although it has no options. *)
Theorem hidden_controls_are_empty (app : application) (df : DataFrame)
    (plot_type : string) :
  eda_toggle_plot_visibility plot_type = toggle_visibility plot_type /\
  (snd (toggle_visibility plot_type) = hidden ->
   y_options (callback app df plot_type) = [] /\
   y_value (callback app df plot_type) = None) /\
  (fst (toggle_visibility plot_type) = hidden ->
   size_options (callback app df plot_type) = []) /\
  (plot_type = "bar" \/ plot_type = "hist" ->
   fst (toggle_visibility plot_type) = [] /\
   size_options (callback app df plot_type) = []).
Proof.
  split; [reflexivity|]. unfold toggle_visibility. cbn [fst snd]. split; [|split].
  - destruct (String.eqb_spec plot_type "hist") as [->|]; [|discriminate].
    intros _. pose proof (callback_eligible app df "hist") as E.
    rewrite eligible_hist in E. now rewrite E.
  - destruct (String.eqb_spec plot_type "box") as [->|];
      [intros _; apply callback_size_options; tauto|].
    destruct (String.eqb_spec plot_type "violin") as [->|];
      [intros _; apply callback_size_options; tauto | discriminate].
  - intros H. split.
    + destruct H as [->| ->]; reflexivity.
    + apply callback_size_options. tauto.
Qed.

Section Backend.

Variable F : Type.
Variable P : plotly F.

(** X12.  A table without rows gives the empty dict in both applications,
    whatever is selected; Plotly is not called, so this holds for every
    back end, also one that raises on every call. *)
Theorem figure_of_empty_table (df : DataFrame) (plot_type : string)
    (x y color size : option string) :
  n_rows df = O ->
  update_figure P df plot_type x y color size = Return EmptyDict /\
  eda_update_plot P df plot_type x y color size = Return EmptyDict.
Proof.
  intros H. unfold update_figure, eda_update_plot. now rewrite H.
Qed.

Lemma placeholder_or_error f df title prefix :
  (forall t, exists fig,
      px P (PxCall "scatter" None None None None None None (Some t)) = Return fig) ->
  exists g, match placeholder P f df title with
            | Return g => Return g
            | Raise e => error_figure P (prefix ++ e)%string
            end = Return g.
Proof.
  intros H. unfold placeholder, error_figure.
  destruct (px P (PxCall f _ _ _ _ _ _ _)) as [fig|e]; [eauto|].
  destruct (H (prefix ++ e)%string) as [fig ->]. eauto.
Qed.

Lemma chart_or_error c prefix :
  (forall t, exists fig,
      px P (PxCall "scatter" None None None None None None (Some t)) = Return fig) ->
  exists g, match chart P c with
            | Return g => Return g
            | Raise e => error_figure P (prefix ++ e)%string
            end = Return g.
Proof.
  intros H. unfold chart, error_figure.
  destruct (px P c) as [fig|e]; [eauto|].
  destruct (H (prefix ++ e)%string) as [fig ->]. eauto.
Qed.

(** X13.  The figure callbacks catch what plotting raises: as long as the
    titled empty scatter of the [except] clause can be drawn, they return
    a value for every table, plot type and selection. *)
Theorem figure_callbacks_return (df : DataFrame) (plot_type : string)
    (x y color size : option string) :
  (forall t, exists fig,
      px P (PxCall "scatter" None None None None None None (Some t)) = Return fig) ->
  (exists g, update_figure P df plot_type x y color size = Return g) /\
  (exists g, eda_update_plot P df plot_type x y color size = Return g).
Proof.
  intros H. unfold update_figure, eda_update_plot.
  destruct (n_rows df =? 0)%nat; [split; eauto|].
  split;
    repeat match goal with
           | |- context [if ?b then _ else _] => destruct b
           end;
    first [apply placeholder_or_error | apply chart_or_error]; exact H.
Qed.

(** X14.  Selections that do not reach the figure: the size column is
    passed on for a scatter plot only, and an empty text in the color or
    size dropdown counts as no selection. *)
Theorem ignored_selections (df : DataFrame) (plot_type : string)
    (x y color size : option string) :
  (plot_type <> "scatter" ->
   update_figure P df plot_type x y color size
   = update_figure P df plot_type x y color None /\
   eda_update_plot P df plot_type x y color size
   = eda_update_plot P df plot_type x y color None) /\
  update_figure P df plot_type x y (Some EmptyString) size
  = update_figure P df plot_type x y None size /\
  update_figure P df plot_type x y color (Some EmptyString)
  = update_figure P df plot_type x y color None /\
  eda_update_plot P df plot_type x y (Some EmptyString) size
  = eda_update_plot P df plot_type x y None size /\
  eda_update_plot P df plot_type x y color (Some EmptyString)
  = eda_update_plot P df plot_type x y color None.
Proof.
  split; [|repeat split; reflexivity].
  intros H. apply String.eqb_neq in H.
  unfold update_figure, eda_update_plot. rewrite H. split; reflexivity.
Qed.

(** X15.  With a required axis unset (no value or the empty text; the
    histogram requires x only), on a table that has rows, the five plot
    types ask Plotly for the prompt of the plot type, the table alone with
    the title that names what to select, and return that figure as it is.
    When Plotly raises on that call the result is the error figure.
    Nothing else that is selected matters: on every table the result is
    the one for no selection at all. *)
Theorem prompt_when_axis_unset (df : DataFrame) (plot_type : string)
    (x y color size : option string) :
  plot_type = "scatter" \/ plot_type = "box" \/ plot_type = "violin" \/
  plot_type = "bar" \/ plot_type = "hist" ->
  truthy x = false \/ (plot_type <> "hist" /\ truthy y = false) ->
  (n_rows df <> O ->
   update_figure P df plot_type x y color size
   = match px P (prompt df plot_type) with
     | Return fig => Return (Figure fig)
     | Raise e => error_figure P ("Error building plot: " ++ e)%string
     end /\
   eda_update_plot P df plot_type x y color size
   = match px P (prompt df plot_type) with
     | Return fig => Return (Figure fig)
     | Raise e => error_figure P ("Error: " ++ e)%string
     end) /\
  update_figure P df plot_type x y color size
  = update_figure P df plot_type None None None None /\
  eda_update_plot P df plot_type x y color size
  = eda_update_plot P df plot_type None None None None.
Proof.
  intros Hk Hu. split.
  - intros Hrows. apply Nat.eqb_neq in Hrows.
    unfold update_figure, eda_update_plot, placeholder. rewrite Hrows.
    destruct Hk as [-> | [-> | [-> | [-> | ->]]]];
      cbn [String.eqb Ascii.eqb Bool.eqb prompt];
      (destruct Hu as [Hx|[Hne Hy]];
       [rewrite Hx; cbn [negb orb]
       | try (exfalso; apply Hne; reflexivity);
         rewrite Hy; cbn [negb]; rewrite orb_true_r]);
      unfold prompt; cbn [String.eqb Ascii.eqb Bool.eqb];
      split; destruct (px P _); reflexivity.
  - unfold update_figure, eda_update_plot.
    destruct (n_rows df =? 0)%nat; [split; reflexivity|].
    destruct Hk as [-> | [-> | [-> | [-> | ->]]]];
      cbn [String.eqb Ascii.eqb Bool.eqb];
      (destruct Hu as [Hx|[Hne Hy]];
       [rewrite Hx; cbn; split; reflexivity
       | try (exfalso; apply Hne; reflexivity);
         rewrite Hy; cbn; rewrite orb_true_r; split; reflexivity]).
Qed.

End Backend.

End FigureFacts.

Section FigureSamples.

Import Samples MoreSamples Upload Figures.

Lemma hidden_controls_are_empty_witness :
  snd (toggle_visibility "hist") = hidden /\
  Dashboard.y_value (Dashboard.callback Dashboard.EdaDashboard flowers "hist") = None.
Proof.
  assert (H : snd (toggle_visibility "hist") = hidden) by reflexivity.
  split; [exact H|].
  apply (proj1 (proj2 (hidden_controls_are_empty Dashboard.EdaDashboard flowers "hist")) H).
Defined.

Lemma figure_of_empty_table_witness :
  n_rows [Series "a" Float64 []] = O /\
  update_figure refusing [Series "a" Float64 []] "scatter" (Some "a") (Some "a") None None
  = Return EmptyDict.
Proof.
  assert (H : n_rows [Series "a" Float64 []] = O) by reflexivity.
  split; [exact H|].
  apply (figure_of_empty_table refusing [Series "a" Float64 []] "scatter"
           (Some "a") (Some "a") None None H).
Defined.

Lemma figure_callbacks_return_witness :
  (forall t, exists fig,
      px refusing (PxCall "scatter" None None None None None None (Some t)) = Return fig) /\
  exists g, update_figure refusing flowers "box" (Some "species") (Some "petal_len")
              None None = Return g.
Proof.
  assert (H : forall t, exists fig,
               px refusing (PxCall "scatter" None None None None None None (Some t))
               = Return fig)
    by (intros t; eexists; reflexivity).
  split; [exact H|].
  apply (figure_callbacks_return refusing flowers "box" (Some "species")
           (Some "petal_len") None None H).
Defined.

Lemma ignored_selections_witness :
  "bar" <> "scatter" /\
  update_figure recording flowers "bar" (Some "species") (Some "petal_len") None
    (Some "petal_wid")
  = update_figure recording flowers "bar" (Some "species") (Some "petal_len") None None.
Proof.
  assert (H : "bar" <> "scatter") by discriminate.
  split; [exact H|].
  apply (proj1 (@ignored_selections _ recording flowers "bar" (Some "species")
                  (Some "petal_len") None (Some "petal_wid")) H).
Defined.

Lemma prompt_when_axis_unset_witness :
  n_rows flowers <> O /\
  update_figure recording flowers "hist" (Some EmptyString) (Some "petal_len")
    (Some "species") None
  = Return (Figure (PxCall "histogram" (Some flowers) None None None None None
                      (Some "Select X column"))) /\
  update_figure refusing flowers "hist" (Some EmptyString) (Some "petal_len")
    (Some "species") None
  = Return (Figure (PxCall "scatter" None None None None None None
                      (Some "Error building plot: bad column"))).
Proof.
  assert (Hr : n_rows flowers <> O) by discriminate.
  assert (Hk : "hist" = "scatter" \/ "hist" = "box" \/ "hist" = "violin" \/
               "hist" = "bar" \/ "hist" = "hist")
    by (repeat (try (left; reflexivity); right); reflexivity).
  assert (Hu : truthy (Some EmptyString) = false \/
               ("hist" <> "hist" /\ truthy (Some "petal_len") = false))
    by (left; reflexivity).
  split; [exact Hr|]. split.
  - rewrite (proj1 (proj1 (@prompt_when_axis_unset _ recording flowers "hist"
                             (Some EmptyString) (Some "petal_len") (Some "species") None
                             Hk Hu) Hr)).
    reflexivity.
  - rewrite (proj1 (proj1 (@prompt_when_axis_unset _ refusing flowers "hist"
                             (Some EmptyString) (Some "petal_len") (Some "species") None
                             Hk Hu) Hr)).
    reflexivity.
Defined.

End FigureSamples.

(** ** Uploads *)

Section UploadFacts.

Import Upload.

Lemma split_comma_none s :
  snd (split_comma s) = None <-> ~ In comma (list_ascii_of_string s).
Proof.
  induction s as [|c t IH]; [cbn; tauto|].
  cbn [split_comma list_ascii_of_string In].
  destruct (Ascii.eqb_spec c comma) as [->|Hc].
  - cbn. split; [discriminate | intros H; exfalso; apply H; now left].
  - destruct (split_comma t) as [h r]. cbn [snd] in IH |- *. rewrite IH.
    split; [intros H [E|E]; [congruence | contradiction] | tauto].
Qed.

(** The split of the upload text is at the first comma: the header
    has no comma, and header, comma and rest put together give the text
    back; a text without a comma is returned whole. *)
Lemma split_comma_first (s : string) :
  match split_comma s with
  | (header, Some rest) =>
      s = (header ++ String comma rest)%string /\
      ~ In comma (list_ascii_of_string header)
  | (header, None) => s = header /\ ~ In comma (list_ascii_of_string s)
  end.
Proof.
  induction s as [|c t IH]; [cbn; tauto|].
  cbn [split_comma list_ascii_of_string In].
  destruct (Ascii.eqb_spec c comma) as [->|Hc].
  - cbn. tauto.
  - destruct (split_comma t) as [h [r|]]; cbn [String.append list_ascii_of_string In].
    + destruct IH as [-> Hh]. split; [reflexivity|].
      intros [E|E]; [congruence | contradiction].
    + destruct IH as [<- Hh]. split; [reflexivity|].
      intros [E|E]; [congruence | contradiction].
Qed.

Variable P : io.

(** X16.  The stored table changes only through a successful parse.  In
    both applications the new store is the old one, or the JSON of the
    table [parse_upload] returned; when the parse raises, the store is
    kept and the message carries the error text. *)
Theorem upload_keeps_store (contents : option string) (filename current_json : string) :
  (fst (handle_upload P contents filename current_json) = current_json \/
   exists c df, contents = Some c /\ parse_upload P c filename = Return df /\
                fst (handle_upload P contents filename current_json) = to_json P df) /\
  (forall c e, contents = Some c -> parse_upload P c filename = Raise e ->
     handle_upload P contents filename current_json
     = (current_json, ("Upload failed: " ++ e)%string) /\
     handle_eda_upload P contents filename current_json
     = Return (current_json, ("❌ Upload failed: " ++ e)%string, EmptyString)) /\
  (forall store line info,
     handle_eda_upload P contents filename current_json = Return (store, line, info) ->
     store = current_json \/
     exists c df, contents = Some c /\ parse_upload P c filename = Return df /\
                  store = to_json P df).
Proof.
  split; [|split].
  - destruct contents as [c|]; cbn; [|now left].
    destruct (parse_upload P c filename) as [df|e] eqn:E; cbn; [|now left].
    right. eauto.
  - intros c e -> E. cbn. now rewrite E.
  - intros store line info. destruct contents as [c|]; cbn.
    + destruct (parse_upload P c filename) as [df|e] eqn:E;
        intros H; injection H as <- _ _; [right; eauto | now left].
    + destruct (read_json P current_json); [|discriminate].
      intros H; injection H as <- _ _. now left.
Qed.

(** X17.  An upload text without a comma is refused before anything is
    decoded: whatever the decoders would do, the store is kept and the
    message is the unpacking error. *)
Theorem upload_without_comma (contents filename current_json : string) :
  ~ In comma (list_ascii_of_string contents) ->
  parse_upload P contents filename = Raise unpack_error /\
  handle_upload P (Some contents) filename current_json
  = (current_json, ("Upload failed: " ++ unpack_error)%string) /\
  handle_eda_upload P (Some contents) filename current_json
  = Return (current_json, ("❌ Upload failed: " ++ unpack_error)%string, EmptyString).
Proof.
  intros H. apply split_comma_none in H.
  assert (E : parse_upload P contents filename = Raise unpack_error).
  { unfold parse_upload. destruct (split_comma contents) as [h r].
    cbn in H. now subst r. }
  unfold handle_upload, handle_eda_upload. now rewrite E.
Qed.

End UploadFacts.

Section UploadSamples.

Import Upload MoreSamples.

Lemma upload_keeps_store_witness :
  parse_upload toy_io "x,zz" "f.csv"
  = Raise "Unable to parse uploaded file 'f.csv': not a workbook" /\
  handle_upload toy_io (Some "x,zz") "f.csv" "old"
  = ("old", "Upload failed: Unable to parse uploaded file 'f.csv': not a workbook").
Proof.
  assert (H : parse_upload toy_io "x,zz" "f.csv"
              = Raise "Unable to parse uploaded file 'f.csv': not a workbook")
    by reflexivity.
  split; [exact H|].
  apply (proj1 (proj2 (upload_keeps_store toy_io (Some "x,zz") "f.csv" "old"))
           "x,zz" _ eq_refl H).
Defined.

Lemma upload_without_comma_witness :
  ~ In comma (list_ascii_of_string "zz") /\
  handle_upload toy_io (Some "zz") "f.csv" "old"
  = ("old", "Upload failed: not enough values to unpack (expected 2, got 1)").
Proof.
  assert (H : ~ In comma (list_ascii_of_string "zz"))
    by (cbn; intuition discriminate).
  split; [exact H|].
  apply (upload_without_comma toy_io "zz" "f.csv" "old" H).
Defined.

End UploadSamples.

(** ** The correlation tab *)

Section HeatmapFacts.

Import Classifier Heatmap.

Variable L : library.
Variable T : Type.
Variable np_round : option matrix -> outcome T.

Lemma mem_columns df c : In c df -> mem (name c) (columns df) = true.
Proof. intros H. apply mem_In. unfold columns. now apply in_map. Qed.

Lemma getitem_list_select p df :
  NoDup (columns df) ->
  getitem_list df (columns (select_dtypes p df)) = Return (select_dtypes p df).
Proof.
  intros Hnd. unfold getitem_list.
  assert (Hsub : forall c, In c (select_dtypes p df) -> In c df)
    by (intros c Hc; apply filter_In in Hc; tauto).
  assert (Hall : forallb (fun c => mem c (columns df)) (columns (select_dtypes p df)) = true).
  { apply forallb_forall. intros x Hx. unfold columns in Hx.
    apply in_map_iff in Hx. destruct Hx as [c [<- Hc]]. apply mem_columns. auto. }
  rewrite Hall. f_equal. unfold columns.
  assert (Hflat : forall l, (forall c, In c l -> In c df) ->
                            flat_map (getitem df) (map name l) = l).
  { induction l as [|c t IH]; cbn; intros Hl; [reflexivity|].
    rewrite (getitem_unique df c Hnd) by (apply Hl; now left).
    cbn. f_equal. apply IH. intros d Hd. apply Hl. now right. }
  now apply Hflat.
Qed.

(** X18.  With the numeric store in step with the table (distinct labels),
    the correlation tab shows the notice exactly when there are fewer than
    two number columns; otherwise it builds the heatmap on a real array
    (never on [None]) whose side is the number of axis labels, the labels
    being the number columns in table order. *)
Theorem heatmap_in_step (df : DataFrame) (method : string) :
  NoDup (columns df) ->
  let numeric_cols := fst (update_column_type_stores df) in
  ((length numeric_cols < 2)%nat ->
   eda_update_corr_heatmap L np_round df method numeric_cols
   = Return (Notice "Need at least 2 numeric columns to compute correlations")) /\
  ((2 <= length numeric_cols)%nat ->
   exists m,
     create_correlation_matrix L df method = Return (Some m) /\
     length m = length numeric_cols /\
     eda_update_corr_heatmap L np_round df method numeric_cols
     = match np_round (Some m) with
       | Raise e => Raise e
       | Return text =>
           Return (HeatmapFigure (Some m) numeric_cols numeric_cols text
                     ("Pairwise Correlations (" ++ capitalize method ++ ")")%string)
       end).
Proof.
  intros Hnd numeric_cols. subst numeric_cols.
  unfold update_column_type_stores. rewrite infer_column_types_eq. cbn [fst].
  unfold eda_update_corr_heatmap. rewrite (getitem_list_select is_number df Hnd).
  assert (Hlen : length (columns (select_dtypes is_number df))
                 = length (select_dtypes is_number df))
    by (unfold columns; apply length_map).
  rewrite Hlen. split.
  - intros H. apply Nat.ltb_lt in H. now rewrite H.
  - intros H. destruct (correlation_matrix_built L df method H) as [m [Hm [Hl _]]].
    exists m. split; [assumption|]. split; [assumption|].
    apply Nat.ltb_ge in H. now rewrite H, Hm.
Qed.

(** X19.  A store that names a label the table does not have makes the
    correlation tab raise a KeyError. *)
Theorem heatmap_unknown_label (df : DataFrame) (method : string)
    (numeric_cols : list string) (c : string) :
  In c numeric_cols -> ~ In c (columns df) ->
  eda_update_corr_heatmap L np_round df method numeric_cols = Raise "KeyError".
Proof.
  intros Hc Hn. unfold eda_update_corr_heatmap, getitem_list.
  destruct (forallb _ numeric_cols) eqn:E; [|reflexivity].
  exfalso. rewrite forallb_forall in E. specialize (E c Hc).
  apply mem_In in E. contradiction.
Qed.

End HeatmapFacts.

Section HeatmapSamples.

Import Classifier Heatmap Samples.

Lemma heatmap_in_step_witness :
  NoDup (columns flowers) /\
  (2 <= length (fst (update_column_type_stores flowers)))%nat /\
  exists m, create_correlation_matrix toy_library flowers "pearson" = Return (Some m) /\
            length m = 2%nat.
Proof.
  assert (Hnd : NoDup (columns flowers)) by (repeat constructor; cbn; intuition discriminate).
  assert (H2 : (2 <= length (fst (update_column_type_stores flowers)))%nat) by (cbn; lia).
  split; [exact Hnd|]. split; [exact H2|].
  destruct (proj2 (heatmap_in_step toy_library (fun _ => Return tt) flowers "pearson" Hnd) H2)
    as [m [Hm [Hlen _]]].
  exists m. split; [exact Hm | exact Hlen].
Defined.

Lemma heatmap_unknown_label_witness :
  In "nope" ["petal_len"; "nope"] /\ ~ In "nope" (columns flowers) /\
  eda_update_corr_heatmap toy_library (fun _ => Return tt) flowers "pearson"
    ["petal_len"; "nope"] = Raise "KeyError".
Proof.
  assert (H1 : In "nope" ["petal_len"; "nope"]) by (cbn; tauto).
  assert (H2 : ~ In "nope" (columns flowers)) by (cbn; intuition discriminate).
  split; [exact H1|]. split; [exact H2|].
  apply (@heatmap_unknown_label toy_library _ (fun _ => Return tt) flowers "pearson"
           ["petal_len"; "nope"] "nope" H1 H2).
Defined.

End HeatmapSamples.

(** ** The stand-alone figure *)

Section BuilderFacts.

Import Classifier Plotter Builder.

Variable G : graph_objects.
Variable L : library.
Variable templates : list (string * pyval).

Lemma getitem_absent df c : ~ In c (columns df) -> getitem df c = [].
Proof.
  unfold getitem, columns. induction df as [|s t IH]; cbn; intros H; [reflexivity|].
  destruct (String.eqb_spec (name s) c) as [E|E]; [exfalso; apply H; now left|].
  apply IH. tauto.
Qed.

Lemma getitem_present df c :
  In c (columns df) -> exists s t, getitem df c = s :: t /\ name s = c.
Proof.
  unfold getitem, columns. induction df as [|s t IH]; cbn; intros H; [contradiction|].
  destruct (String.eqb_spec (name s) c) as [E|E]; [eauto|].
  apply IH. destruct H; [contradiction | assumption].
Qed.

Lemma column_tolist_absent df c : ~ In c (columns df) -> column_tolist df c = Raise "KeyError".
Proof. intros H. unfold column_tolist. now rewrite getitem_absent. Qed.

Lemma column_tolist_present df c :
  In c (columns df) -> exists v, column_tolist df c = Return v.
Proof.
  intros H. unfold column_tolist.
  destruct (getitem_present df c H) as [s [t [-> _]]]. eauto.
Qed.

Lemma index_present c l :
  In c l -> exists n, index c l = Return n /\ nth_error l n = Some c.
Proof.
  induction l as [|d t IH]; cbn; intros H; [contradiction|].
  destruct (String.eqb_spec d c) as [->|E]; [exists O; now split|].
  destruct H as [H|H]; [contradiction|].
  destruct (IH H) as [n [-> Hn]]. exists (S n). now split.
Qed.

Lemma numeric_cols_incl df c : In c (numeric_cols df) -> In c (columns df).
Proof. unfold numeric_cols. intros H. apply filter_In in H. tauto. Qed.

Lemma item0_nonempty df : df <> [] -> exists c, item0 (columns df) = Return c /\ In c (columns df).
Proof. destruct df as [|s t]; [congruence|]. intros _. exists (name s). cbn. auto. Qed.

Lemma resolve_default_x_unset df :
  df <> [] ->
  exists c, resolve_default_x df None = Return c /\ In c (columns df) /\
            hd_error (match numeric_cols df with [] => columns df | l => l end) = Some c.
Proof.
  intros Hdf. unfold resolve_default_x.
  destruct (numeric_cols df) as [|c t] eqn:E.
  - cbn. destruct df as [|s r]; [congruence|]. exists (name s). cbn. auto.
  - cbn. exists c. repeat split; trivial. apply numeric_cols_incl. rewrite E. now left.
Qed.

Lemma resolve_default_y_unset df :
  df <> [] -> exists c, resolve_default_y df None = Return c /\ In c (columns df).
Proof.
  intros Hdf. unfold resolve_default_y.
  destruct (numeric_cols df) as [|a [|b t]] eqn:E; cbn [length Nat.leb].
  1,2: destruct (columns df) as [|c [|d r]] eqn:Ec; cbn;
         [destruct df; [congruence | discriminate Ec]
         | exists c; split; [reflexivity | now left]
         | exists d; split; [reflexivity | right; now left]].
  exists b. split; [reflexivity|]. apply numeric_cols_incl. rewrite E. right. now left.
Qed.

Lemma resolve_default_color_present df x y :
  df <> [] -> exists c, resolve_default_color df x y = Return c /\
                        (c = x \/ In c (columns df)) /\ (x <> y -> c = x).
Proof.
  intros Hdf. unfold resolve_default_color.
  destruct (String.eqb_spec x y) as [E|E]; cbn [negb].
  - destruct (numeric_cols df) as [|c t] eqn:En.
    + destruct (item0_nonempty Hdf) as [c [-> Hc]]. exists c. tauto.
    + exists c. split; [reflexivity|]. split; [|tauto].
      right. apply numeric_cols_incl. rewrite En. now left.
  - exists x. tauto.
Qed.

(** X20.  A table without columns gives no figure: an IndexError, or a
    KeyError when two different default columns are named. *)
Theorem scatter_without_columns (default_x default_y : option string) :
  make_scatter_with_dropdowns G L templates [] default_x default_y
  = match default_x, default_y with
    | Some a, Some b => if a =? b then Raise "IndexError" else Raise "KeyError"
    | _, _ => Raise "IndexError"
    end.
Proof.
  unfold make_scatter_with_dropdowns.
  destruct default_x as [a|], default_y as [b|]; cbn; trivial.
  unfold resolve_default_color. now destruct (a =? b).
Qed.

(** X21.  Naming a default column the table does not have gives a
    KeyError, on every table that has columns (with distinct labels, as
    the builder takes them). *)
Theorem scatter_unknown_default (df : DataFrame) (default_x default_y : option string)
    (c : string) :
  NoDup (columns df) -> df <> [] -> ~ In c (columns df) ->
  default_x = Some c \/ default_y = Some c ->
  make_scatter_with_dropdowns G L templates df default_x default_y = Raise "KeyError".
Proof.
  intros _ Hdf Hc Hd. unfold make_scatter_with_dropdowns.
  assert (Hx : exists x, resolve_default_x df default_x = Return x).
  { destruct default_x as [a|]; [exists a; reflexivity|].
    destruct (resolve_default_x_unset Hdf) as [x [E _]]. eauto. }
  assert (Hy : exists y, resolve_default_y df default_y = Return y).
  { destruct default_y as [b|]; [exists b; reflexivity|].
    destruct (resolve_default_y_unset Hdf) as [y [E _]]. eauto. }
  destruct Hx as [x Ex]. destruct Hy as [y Ey].
  assert (Habsent : ~ In x (columns df) \/ ~ In y (columns df)).
  { destruct Hd as [-> | ->].
    - left. cbn in Ex. injection Ex as <-. assumption.
    - right. cbn in Ey. injection Ey as <-. assumption. }
  rewrite Ex, Ey.
  destruct (resolve_default_color_present x y Hdf) as [k [-> _]].
  destruct (in_dec string_dec k (columns df)) as [Hkin|Hkout];
    [|now rewrite (column_tolist_absent _ _ Hkout)].
  destruct (column_tolist_present _ _ Hkin) as [vk ->].
  destruct (in_dec string_dec x (columns df)) as [Hxin|Hxout];
    [|now rewrite (column_tolist_absent _ _ Hxout)].
  destruct (column_tolist_present _ _ Hxin) as [vx ->].
  destruct Habsent as [H|H]; [contradiction|].
  now rewrite (column_tolist_absent _ _ H).
Qed.

(** X22.  On a table that has columns (with distinct labels), without
    named defaults: the x column is the first numeric column, or the first
    column when none is numeric; x and y are columns of the table; the
    trace handed to [go.Scatter] has the values of the x and y columns and
    the values of the x column as marker colors.  When Plotly refuses the
    trace or the layout, its exception is what the call ends in; otherwise
    the figure is returned with five dropdowns, and in the x, y and color
    dropdowns the button marked active is the one of the column shown. *)
Theorem scatter_defaults (df : DataFrame) :
  NoDup (columns df) -> df <> [] ->
  exists x y sx sy menus,
    hd_error (match numeric_cols df with [] => columns df | l => l end) = Some x /\
    In sx df /\ name sx = x /\ In sy df /\ name sy = y /\
    length menus = 5%nat /\
    map (fun m => option_map Plotter.label (nth_error (buttons m) (active m)))
        (firstn 3 menus)
    = [Some x; Some y; Some x] /\
    make_scatter_with_dropdowns G L templates df None None
    = match go_scatter G (tolist sx) (tolist sy) 10 (tolist sx) with
      | Raise e => Raise e
      | Return _ =>
          match update_layout G menus with
          | Raise e => Raise e
          | Return _ =>
              Return (ScatterFigure (tolist sx) (tolist sy) 10 (tolist sx) menus x y)
          end
      end.
Proof.
  intros Hnd Hdf. unfold make_scatter_with_dropdowns.
  destruct (resolve_default_x_unset Hdf) as [x [Ex [Hx Hhd]]].
  destruct (resolve_default_y_unset Hdf) as [y [Ey Hy]].
  rewrite Ex, Ey.
  assert (Ec : resolve_default_color df x y = Return x).
  { unfold resolve_default_color.
    destruct (String.eqb_spec x y) as [E|E]; cbn [negb]; [|reflexivity].
    revert Hhd. destruct (numeric_cols df) as [|c t]; cbn.
    - intros Hhd. destruct (columns df); [discriminate|].
      cbn in Hhd |- *. congruence.
    - congruence. }
  rewrite Ec.
  assert (Hcol : forall c, In c (columns df) ->
                 exists s, In s df /\ name s = c /\ column_tolist df c = Return (tolist s)).
  { intros c Hc. unfold columns in Hc. apply in_map_iff in Hc.
    destruct Hc as [s [<- Hs]]. exists s. split; [assumption|]. split; [reflexivity|].
    unfold column_tolist. now rewrite (getitem_unique df s Hnd Hs). }
  destruct (Hcol x Hx) as [sx [Hsx [Hnx Etx]]].
  destruct (Hcol y Hy) as [sy [Hsy [Hny Ety]]].
  rewrite Etx, Ety.
  destruct (index_present _ _ Hx) as [nx [Eix Hnthx]].
  destruct (index_present _ _ Hy) as [ny [Eiy Hnthy]].
  rewrite Eix, (proj2 (mem_In x (columns df)) Hx).
  try rewrite Eiy.
  eexists x, y, sx, sy, _.
  split; [exact Hhd|]. split; [exact Hsx|]. split; [exact Hnx|].
  split; [exact Hsy|]. split; [exact Hny|].
  split; [|split; [|reflexivity]].
  - reflexivity.
  - cbn [firstn map buttons active]. rewrite <- !nth_error_map.
    unfold x_buttons, y_buttons, color_buttons.
    rewrite !make_buttons_labels. now rewrite Hnthx, Hnthy.
Qed.

Lemma get_column_unique df s :
  NoDup (columns df) -> In s df -> get_column df (name s) = s.
Proof. intros Hnd Hs. unfold get_column. now rewrite getitem_unique. Qed.

(** X23.  With distinct labels, the k-th button of a dropdown carries the
    data of the k-th column: its values for the axis (as text when the
    column is not numeric) together with the new axis title, the sizes of
    [size_transform], and for the color the values with the color scale
    shown exactly when the column is numeric. *)
Theorem buttons_by_column (df : DataFrame) (k : nat) (s : series) :
  NoDup (columns df) -> nth_error df k = Some s ->
  nth_error (x_buttons L df) k
  = Some (Button "update" (name s)
            [PDict [("x", PList [axis_transform L s])]; axis_title "xaxis" (name s)]) /\
  nth_error (y_buttons L df) k
  = Some (Button "update" (name s)
            [PDict [("y", PList [axis_transform L s])]; axis_title "yaxis" (name s)]) /\
  nth_error (size_buttons df) k
  = Some (Button "restyle" (name s)
            [PDict [("marker.size", PList [PList (map PFloat (size_transform s))])];
             PList [PInt 0]]) /\
  nth_error (color_buttons df) k
  = Some (Button "restyle" (name s)
            [PDict [("marker.color", PList [tolist s]);
                    ("marker.colorscale",
                     if is_numeric_series s then PStr "Viridis" else PNone);
                    ("marker.showscale", PBool (is_numeric_series s))];
             PList [PInt 0]]).
Proof.
  intros Hnd Hk.
  assert (Hs : In s df) by (eapply nth_error_In; eassumption).
  pose proof (get_column_unique df s Hnd Hs) as Hg.
  unfold x_buttons, y_buttons, size_buttons, color_buttons, make_buttons_for_attr, columns.
  rewrite !nth_error_map, Hk. cbn. rewrite Hg.
  repeat split. now destruct (is_numeric_series s).
Qed.

End BuilderFacts.

Section BuilderSamples.

Import Plotter Builder Samples.

Lemma scatter_unknown_default_witness :
  NoDup (columns flowers) /\ flowers <> [] /\ ~ In "zz" (columns flowers) /\
  make_scatter_with_dropdowns MoreSamples.lenient toy_library [] flowers (Some "zz") None
  = Raise "KeyError".
Proof.
  assert (H0 : NoDup (columns flowers)) by (repeat constructor; cbn; intuition discriminate).
  assert (H1 : flowers <> []) by discriminate.
  assert (H2 : ~ In "zz" (columns flowers)) by (cbn; intuition discriminate).
  split; [exact H0|]. split; [exact H1|]. split; [exact H2|].
  apply (@scatter_unknown_default MoreSamples.lenient toy_library [] flowers
           (Some "zz") None "zz" H0 H1 H2).
  now left.
Defined.

Lemma scatter_defaults_witness :
  NoDup (columns flowers) /\ flowers <> [] /\
  exists fig,
    make_scatter_with_dropdowns MoreSamples.lenient toy_library [] flowers None None
    = Return fig.
Proof.
  assert (H0 : NoDup (columns flowers)) by (repeat constructor; cbn; intuition discriminate).
  assert (H1 : flowers <> []) by discriminate.
  split; [exact H0|]. split; [exact H1|].
  destruct (@scatter_defaults MoreSamples.lenient toy_library [] flowers H0 H1)
    as [x [y [sx [sy [menus [_ [_ [_ [_ [_ [_ [_ E]]]]]]]]]]]].
  rewrite E. cbn. eexists. reflexivity.
Defined.

(** On a table without a numeric column the marker colors are text, and
    graph objects that refuse text colors end the call. *)
Example scatter_of_words :
  make_scatter_with_dropdowns MoreSamples.strict toy_library [] MoreSamples.words None None
  = Raise "ValueError".
Proof. reflexivity. Qed.

Lemma buttons_by_column_witness :
  NoDup (columns flowers) /\
  nth_error (size_buttons flowers) 0
  = Some (Button "restyle" "species"
            [PDict [("marker.size",
                     PList [PList (map PFloat (size_transform species))])];
             PList [PInt 0]]).
Proof.
  assert (Hnd : NoDup (columns flowers)) by (repeat constructor; cbn; intuition discriminate).
  split; [exact Hnd|].
  apply (@buttons_by_column toy_library flowers 0 species Hnd eq_refl).
Defined.

End BuilderSamples.
